(** * ollama-serverd-br: a shallow embedding of the proxy's controllers

    The development follows the layout of the repository:
    - the JavaScript values and the platform operations the handlers rely on
      (strings, [JSON.parse], [Buffer.prototype.toString], the clock,
      [Math.random] and the HTTP response),
    - [config/config.js] ([mapModel]),
    - [utils/apiUtils.js] ([makeChatRequest], [makeEmbeddingsRequest]),
    - [utils/modelUtils.js] ([createModelObject], [getModelList]),
    - [controllers/openaiController.js] (module [OpenAI]),
    - [controllers/ollamaController.js] (module [Ollama]),
    - the contracts the properties are stated with and the sample requests
      and streams they are tried on,
    - the properties. *)

From Stdlib Require Import List ZArith NArith QArith Qround Bool Lia.
From Stdlib.Strings Require Import String Ascii Byte.
Import ListNotations.

Set Warnings "-register-all".
Local Open Scope Z_scope.

(* ===================================================================== *)
(** * JavaScript strings *)
(* ===================================================================== *)

(** A JavaScript string is a sequence of UTF-16 code units. *)
Definition jsstring := list N.

(** An ASCII literal of the source, as a JavaScript string. *)
Definition lit (s : string) : jsstring :=
  map N_of_ascii (list_ascii_of_string s).
Arguments lit s%_string.

(** The same, for literals that contain double quotes: an apostrophe in [s]
    stands for the double quote character (code unit 34). *)
Definition litq (s : string) : jsstring :=
  map (fun c => if N.eqb c 39 then 34%N else c) (lit s).
Arguments litq s%_string.

Fixpoint str_eqb (a b : jsstring) : bool :=
  match a, b with
  | [], [] => true
  | x :: a', y :: b' => N.eqb x y && str_eqb a' b'
  | _, _ => false
  end.

Definition is_empty (s : jsstring) : bool :=
  match s with [] => true | _ => false end.

(** [s.indexOf(c)] for a one-character needle: the index of the first
    occurrence, or [-1]. *)
Fixpoint indexOf (s : jsstring) (c : N) : Z :=
  match s with
  | [] => -1
  | x :: r =>
      if N.eqb x c then 0
      else let i := indexOf r c in if i =? -1 then -1 else i + 1
  end.

(** [s.slice(a, b)] and [s.slice(a)] for the non-negative indices the
    handlers pass. *)
Definition slice (s : jsstring) (a b : Z) : jsstring :=
  firstn (Z.to_nat b - Z.to_nat a) (skipn (Z.to_nat a) s).

Definition slice_from (s : jsstring) (a : Z) : jsstring :=
  skipn (Z.to_nat a) s.

(** ECMAScript WhiteSpace and LineTerminator code points, which
    [String.prototype.trim] strips. *)
Definition is_js_space (c : N) : bool :=
  ((9 <=? c) && (c <=? 13) || N.eqb c 32 || N.eqb c 160 || N.eqb c 5760
   || (8192 <=? c) && (c <=? 8202) || N.eqb c 8232 || N.eqb c 8233
   || N.eqb c 8239 || N.eqb c 8287 || N.eqb c 12288 || N.eqb c 65279)%N.

Fixpoint trim_start (s : jsstring) : jsstring :=
  match s with
  | c :: r => if is_js_space c then trim_start r else s
  | [] => []
  end.

Definition trim (s : jsstring) : jsstring :=
  rev (trim_start (rev (trim_start s))).

Fixpoint starts_with (p s : jsstring) : bool :=
  match p, s with
  | [], _ => true
  | x :: p', y :: s' => N.eqb x y && starts_with p' s'
  | _ :: _, [] => false
  end.

(** [message.replace(/^data: /, '')]. *)
Definition strip_data_prefix (message : jsstring) : jsstring :=
  if starts_with (lit "data: ") message
  then skipn (List.length (lit "data: ")) message
  else message.

(** Decimal rendering of an array index, as used for property keys. *)
Fixpoint digits_of_nat (fuel n : nat) (acc : jsstring) : jsstring :=
  match fuel with
  | O => acc
  | S f =>
      let d := (48 + N.of_nat (n mod 10))%N in
      if (n <? 10)%nat then d :: acc else digits_of_nat f (n / 10) (d :: acc)
  end.

Definition index_key (n : nat) : jsstring := digits_of_nat (S n) n [].




(* ===================================================================== *)
(** * JavaScript values *)
(* ===================================================================== *)

(** The values that reach the handlers: request bodies, upstream replies and
    the objects the handlers build.  Numbers are kept as exact rationals;
    objects keep their own enumerable properties in insertion order. *)
Inductive jsval : Type :=
| JUndefined
| JNull
| JBool (b : bool)
| JNum (q : Q)
| JStr (s : jsstring)
| JArr (items : list jsval)
| JObj (fields : list (jsstring * jsval)).

Definition JInt (z : Z) : jsval := JNum (inject_Z z).

(** ToBoolean. *)
Definition truthy (v : jsval) : bool :=
  match v with
  | JUndefined | JNull => false
  | JBool b => b
  | JNum q => negb (Qnum q =? 0)
  | JStr s => negb (is_empty s)
  | JArr _ | JObj _ => true
  end.

Definition nullish (v : jsval) : bool :=
  match v with JUndefined | JNull => true | _ => false end.

(** [a || b] and [a && b]. *)
Definition js_or (a b : jsval) : jsval := if truthy a then a else b.
Definition js_and (a b : jsval) : jsval := if truthy a then b else a.

(** [v === 'text'] against a string literal. *)
Definition is_str (v : jsval) (s : jsstring) : bool :=
  match v with JStr t => str_eqb t s | _ => false end.

Fixpoint lookup (k : jsstring) (fs : list (jsstring * jsval)) : option jsval :=
  match fs with
  | [] => None
  | (k', v) :: r => if str_eqb k k' then Some v else lookup k r
  end.

(** Assignment to a property: overwrite in place or append. *)
Fixpoint obj_set (k : jsstring) (v : jsval) (fs : list (jsstring * jsval))
  : list (jsstring * jsval) :=
  match fs with
  | [] => [(k, v)]
  | (k', v') :: r =>
      if str_eqb k k' then (k, v) :: r else (k', v') :: obj_set k v r
  end.

(** Outcome of an expression that may throw. *)
Inductive result (A : Type) : Type :=
| Ok (a : A)
| Throw.
Arguments Ok {A} a.
Arguments Throw {A}.

Definition rbind {A B} (r : result A) (k : A -> result B) : result B :=
  match r with Ok a => k a | Throw => Throw end.

(** [v.k] for a property name other than [length] or an index: a TypeError on
    [null] and [undefined], the own property of an object, [undefined] on
    every other value. *)
Definition get (v : jsval) (k : jsstring) : result jsval :=
  match v with
  | JUndefined | JNull => Throw
  | JObj fs => Ok (match lookup k fs with Some x => x | None => JUndefined end)
  | _ => Ok JUndefined
  end.

(** [v[i]]. *)
Definition get_index (v : jsval) (i : nat) : result jsval :=
  match v with
  | JUndefined | JNull => Throw
  | JArr l => Ok (nth i l JUndefined)
  | JStr s => Ok (match nth_error s i with Some c => JStr [c] | None => JUndefined end)
  | JObj fs => Ok (match lookup (index_key i) fs with Some x => x | None => JUndefined end)
  | _ => Ok JUndefined
  end.

(** [v?.k] and [v?.[i]]. *)
Definition get_opt (v : jsval) (k : jsstring) : jsval :=
  match get v k with Ok x => x | Throw => JUndefined end.

Definition get_index_opt (v : jsval) (i : nat) : jsval :=
  match get_index v i with Ok x => x | Throw => JUndefined end.

(** [v.k = x] in non-strict code: a TypeError on [null] and [undefined], a
    property write on an object, ignored on a primitive.  A named property
    written on an array does not show in its JSON rendering. *)
Definition set (v : jsval) (k : jsstring) (x : jsval) : result jsval :=
  match v with
  | JUndefined | JNull => Throw
  | JObj fs => Ok (JObj (obj_set k x fs))
  | _ => Ok v
  end.

(** The own enumerable properties of a value, as object rest sees them (the
    order the engine gives to keys that look like array indices aside). *)
Fixpoint indexed (i : nat) (l : list jsval) : list (jsstring * jsval) :=
  match l with
  | [] => []
  | x :: r => (index_key i, x) :: indexed (S i) r
  end.

Definition own_props (v : jsval) : list (jsstring * jsval) :=
  match v with
  | JObj fs => fs
  | JArr l => indexed 0 l
  | JStr s => indexed 0 (map (fun c => JStr [c]) s)
  | _ => []
  end.

Definition mem_key (k : jsstring) (ks : list jsstring) : bool :=
  existsb (str_eqb k) ks.

(** [const { k1: _, ..., ...rest } = v]. *)
Definition rest_without (ks : list jsstring) (v : jsval)
  : result (list (jsstring * jsval)) :=
  if nullish v then Throw
  else Ok (filter (fun kv => negb (mem_key (fst kv) ks)) (own_props v)).

(** Object spread: [{ ...fs, ...extra }]. *)
Definition obj_spread (fs extra : list (jsstring * jsval))
  : list (jsstring * jsval) :=
  fold_left (fun acc kv => obj_set (fst kv) (snd kv) acc) extra fs.

(** [v.length]. *)
Definition js_length (v : jsval) : result jsval :=
  match v with
  | JUndefined | JNull => Throw
  | JArr l => Ok (JInt (Z.of_nat (List.length l)))
  | JStr s => Ok (JInt (Z.of_nat (List.length s)))
  | JObj fs => Ok (match lookup (lit "length") fs with
                   | Some x => x
                   | None => JUndefined
                   end)
  | _ => Ok JUndefined
  end.

(** [s.split(c)] for a one-character separator. *)
Fixpoint split_on (c : N) (s cur : jsstring) : list jsstring :=
  match s with
  | [] => [rev cur]
  | x :: r =>
      if N.eqb x c then rev cur :: split_on c r [] else split_on c r (x :: cur)
  end.

(* ===================================================================== *)
(** * JSON.parse *)
(* ===================================================================== *)

(** A recursive-descent reading of the JSON grammar (ECMA-404), on code
    units.  [None] stands for the SyntaxError that [JSON.parse] throws.  A
    repeated key overwrites the earlier one.  Number literals denote their
    exact decimal value. *)

Definition is_json_ws (c : N) : bool :=
  (N.eqb c 32 || N.eqb c 9 || N.eqb c 10 || N.eqb c 13)%N.

Fixpoint skip_ws (s : jsstring) : jsstring :=
  match s with
  | c :: r => if is_json_ws c then skip_ws r else s
  | [] => []
  end.

Definition is_digit (c : N) : bool := ((48 <=? c) && (c <=? 57))%N.

Definition hex_value (c : N) : option N :=
  if is_digit c then Some (c - 48)%N
  else if ((97 <=? c) && (c <=? 102))%N then Some (c - 87)%N
  else if ((65 <=? c) && (c <=? 70))%N then Some (c - 55)%N
  else None.

Definition hex4 (a b c d : N) : option N :=
  match hex_value a, hex_value b, hex_value c, hex_value d with
  | Some x, Some y, Some z, Some w => Some (((x * 16 + y) * 16 + z) * 16 + w)%N
  | _, _, _, _ => None
  end.

(** The characters of a string literal after its opening quote. *)
Fixpoint parse_string_body (s acc : jsstring) : option (jsstring * jsstring) :=
  match s with
  | [] => None
  | c :: r =>
      if N.eqb c 34 then Some (rev acc, r)
      else if N.eqb c 92 then
        match r with
        | [] => None
        | e :: r' =>
            if N.eqb e 34 then parse_string_body r' (34%N :: acc)
            else if N.eqb e 92 then parse_string_body r' (92%N :: acc)
            else if N.eqb e 47 then parse_string_body r' (47%N :: acc)
            else if N.eqb e 98 then parse_string_body r' (8%N :: acc)
            else if N.eqb e 102 then parse_string_body r' (12%N :: acc)
            else if N.eqb e 110 then parse_string_body r' (10%N :: acc)
            else if N.eqb e 114 then parse_string_body r' (13%N :: acc)
            else if N.eqb e 116 then parse_string_body r' (9%N :: acc)
            else if N.eqb e 117 then
              match r' with
              | h1 :: h2 :: h3 :: h4 :: r'' =>
                  match hex4 h1 h2 h3 h4 with
                  | Some u => parse_string_body r'' (u :: acc)
                  | None => None
                  end
              | _ => None
              end
            else None
        end
      else if (c <? 32)%N then None
      else parse_string_body r (c :: acc)
  end.

(** A run of decimal digits: its value, its length and what follows. *)
Fixpoint take_digits (s : jsstring) (acc : Z) (n : nat) : Z * nat * jsstring :=
  match s with
  | c :: r =>
      if is_digit c then take_digits r (acc * 10 + Z.of_N (c - 48)) (S n)
      else (acc, n, s)
  | [] => (acc, n, [])
  end.

Definition scale (q : Q) (e : Z) : Q :=
  if e <? 0 then q / inject_Z (10 ^ (- e)) else q * inject_Z (10 ^ e).

Definition parse_exponent (s : jsstring) : option (Z * jsstring) :=
  match s with
  | c :: r =>
      if (N.eqb c 101 || N.eqb c 69)%N then
        let '(neg, r1) :=
          match r with
          | sg :: r' =>
              if N.eqb sg 45 then (true, r')
              else if N.eqb sg 43 then (false, r') else (false, r)
          | [] => (false, r)
          end in
        match take_digits r1 0 0 with
        | (_, O, _) => None
        | (e, S _, r2) => Some (if neg then - e else e, r2)
        end
      else Some (0, s)
  | [] => Some (0, [])
  end.

Definition parse_fraction (s : jsstring) : option (Z * nat * jsstring) :=
  match s with
  | c :: r =>
      if N.eqb c 46 then
        match take_digits r 0 0 with
        | (_, O, _) => None
        | (f, S n, r1) => Some (f, S n, r1)
        end
      else Some (0, O, s)
  | [] => Some (0, O, [])
  end.

Definition parse_number (s : jsstring) : option (jsval * jsstring) :=
  let '(neg, s1) :=
    match s with
    | c :: r => if N.eqb c 45 then (true, r) else (false, s)
    | [] => (false, s)
    end in
  let int_part :=
    match s1 with
    | c :: r =>
        if N.eqb c 48 then Some (0, r)
        else if is_digit c then
          let '(i, _, r1) := take_digits s1 0 0 in Some (i, r1)
        else None
    | [] => None
    end in
  match int_part with
  | None => None
  | Some (i, r1) =>
      match parse_fraction r1 with
      | None => None
      | Some (f, nf, r2) =>
          match parse_exponent r2 with
          | None => None
          | Some (e, r3) =>
              let m := i * 10 ^ Z.of_nat nf + f in
              let q := scale (inject_Z m) (e - Z.of_nat nf) in
              Some (JNum (Qred (if neg then - q else q)), r3)
          end
      end
  end.

Fixpoint parse_value (fuel : nat) (s : jsstring) {struct fuel}
  : option (jsval * jsstring) :=
  match fuel with
  | O => None
  | S f =>
      match skip_ws s with
      | [] => None
      | c :: r =>
          if N.eqb c 34 then
            match parse_string_body r [] with
            | Some (str, r') => Some (JStr str, r')
            | None => None
            end
          else if N.eqb c 123 then
            match skip_ws r with
            | c' :: r' =>
                if N.eqb c' 125 then Some (JObj [], r')
                else parse_members f (c' :: r') []
            | [] => None
            end
          else if N.eqb c 91 then
            match skip_ws r with
            | c' :: r' =>
                if N.eqb c' 93 then Some (JArr [], r')
                else parse_elements f (c' :: r') []
            | [] => None
            end
          else if starts_with (lit "true") (c :: r) then
            Some (JBool true, skipn 4 (c :: r))
          else if starts_with (lit "false") (c :: r) then
            Some (JBool false, skipn 5 (c :: r))
          else if starts_with (lit "null") (c :: r) then
            Some (JNull, skipn 4 (c :: r))
          else parse_number (c :: r)
      end
  end

with parse_elements (fuel : nat) (s : jsstring) (acc : list jsval) {struct fuel}
  : option (jsval * jsstring) :=
  match fuel with
  | O => None
  | S f =>
      match parse_value f s with
      | None => None
      | Some (v, r) =>
          match skip_ws r with
          | c :: r' =>
              if N.eqb c 44 then parse_elements f r' (v :: acc)
              else if N.eqb c 93 then Some (JArr (rev (v :: acc)), r')
              else None
          | [] => None
          end
      end
  end

with parse_members (fuel : nat) (s : jsstring)
                   (acc : list (jsstring * jsval)) {struct fuel}
  : option (jsval * jsstring) :=
  match fuel with
  | O => None
  | S f =>
      match skip_ws s with
      | c :: r =>
          if N.eqb c 34 then
            match parse_string_body r [] with
            | None => None
            | Some (k, r1) =>
                match skip_ws r1 with
                | c1 :: r2 =>
                    if N.eqb c1 58 then
                      match parse_value f r2 with
                      | None => None
                      | Some (v, r3) =>
                          match skip_ws r3 with
                          | c3 :: r4 =>
                              if N.eqb c3 44 then
                                parse_members f r4 (obj_set k v acc)
                              else if N.eqb c3 125 then
                                Some (JObj (obj_set k v acc), r4)
                              else None
                          | [] => None
                          end
                      end
                    else None
                | [] => None
                end
            end
          else None
      | [] => None
      end
  end.

Definition JSON_parse (text : jsstring) : option jsval :=
  match parse_value (2 * List.length text + 2) text with
  | Some (v, r) => if is_empty (skip_ws r) then Some v else None
  | None => None
  end.

(* ===================================================================== *)
(** * Buffer.prototype.toString *)
(* ===================================================================== *)

(** UTF-8 decoding of one [Buffer], as [chunk.toString()] performs it: every
    maximal ill-formed subsequence, and a sequence cut short by the end of
    the buffer, becomes one U+FFFD. *)

Record utf8_state := mk_utf8 {
  u_cp : N;          (* code point bits read so far *)
  u_needed : nat;    (* continuation bytes still expected *)
  u_lower : N;       (* admissible range of the next byte *)
  u_upper : N
}.

Definition utf8_init : utf8_state := mk_utf8 0 0 128 191.

Definition utf8_lead (b : N) : list N * utf8_state :=
  if (b <=? 127)%N then ([b], utf8_init)
  else if ((194 <=? b) && (b <=? 223))%N then
    ([], mk_utf8 (N.land b 31) 1 128 191)
  else if ((224 <=? b) && (b <=? 239))%N then
    ([], mk_utf8 (N.land b 15) 2
           (if N.eqb b 224 then 160 else 128)
           (if N.eqb b 237 then 159 else 191))%N
  else if ((240 <=? b) && (b <=? 244))%N then
    ([], mk_utf8 (N.land b 7) 3
           (if N.eqb b 240 then 144 else 128)
           (if N.eqb b 244 then 143 else 191))%N
  else ([65533%N], utf8_init).

Definition utf8_step (st : utf8_state) (b : N) : list N * utf8_state :=
  match u_needed st with
  | O => utf8_lead b
  | S n =>
      if ((u_lower st <=? b) && (b <=? u_upper st))%N then
        let c := N.lor (N.shiftl (u_cp st) 6) (N.land b 63) in
        match n with
        | O => ([c], utf8_init)
        | S _ => ([], mk_utf8 c n 128 191)
        end
      else
        let '(out, st') := utf8_lead b in (65533%N :: out, st')
  end.

Fixpoint utf8_run (st : utf8_state) (bytes : list N) : list N :=
  match bytes with
  | [] => match u_needed st with O => [] | S _ => [65533%N] end
  | b :: r => let '(out, st') := utf8_step st b in out ++ utf8_run st' r
  end.

Definition utf16_units (cp : N) : list N :=
  if (cp <? 65536)%N then [cp]
  else let c := (cp - 65536)%N in [55296 + c / 1024; 56320 + c mod 1024]%N.

Definition Buffer_toString (chunk : list byte) : jsstring :=
  flat_map utf16_units (utf8_run utf8_init (map Byte.to_N chunk)).

(** The UTF-8 bytes of an ASCII literal. *)
Definition ascii_bytes (s : jsstring) : list byte :=
  map (fun c => match Byte.of_N c with Some b => b | None => x3f end) s.

(* ===================================================================== *)
(** * The platform: clock, random numbers, the HTTP response *)
(* ===================================================================== *)

(** A [Date] object, by the calendar fields [getFullYear], [setFullYear] and
    [toISOString] work on: year, month (0 to 11), day of the month and the
    milliseconds elapsed within the day. *)
Record date := mk_date {
  d_year : Z;
  d_month : Z;
  d_day : Z;
  d_ms : Z
}.






(** What the process observes of its environment: the successive readings of
    the clock ([Date.now()] in milliseconds, [new Date()] as a date) and the
    successive results of [Math.random()], with the number of readings and
    draws made so far. *)
Record world := mk_world {
  clock_ms : nat -> Z;
  clock_date : nat -> date;
  random : nat -> Q;
  ticks : nat;
  draws : nat
}.

Definition Date_now (w : world) : Z * world :=
  (clock_ms w (ticks w),
   mk_world (clock_ms w) (clock_date w) (random w) (S (ticks w)) (draws w)).

Definition new_Date (w : world) : date * world :=
  (clock_date w (ticks w),
   mk_world (clock_ms w) (clock_date w) (random w) (S (ticks w)) (draws w)).

Definition Math_random (w : world) : Q * world :=
  (random w (draws w),
   mk_world (clock_ms w) (clock_date w) (random w) (ticks w) (S (draws w))).

(** [Math.floor(Math.random() * n)].  The product is taken exactly; rounded
    to a double it stays below [n] as well. *)
Definition random_below (n : Z) (w : world) : Z * world :=
  let '(r, w') := Math_random w in (Qfloor (r * inject_Z n), w').

(** Every result of [Math.random()] lies in [0, 1). *)
Definition unit_draws (w : world) : Prop :=
  forall n, (0 <= random w n)%Q /\ (random w n < 1)%Q.

(* --------------------------------------------------------------------- *)
(** ** Frames on the wire *)

(** The [id] of a streamed chunk: the upstream's own, or the template
    [chatcmpl-${Date.now()}-${Math.random().toString(36).substr(2, 9)}]. *)
Inductive chunk_id :=
| UpstreamId (v : jsval)
| SyntheticId (now : Z) (rnd : Q).

(** The object literal of a [chat.completion.chunk], with [choices[0]] and its
    [delta] flattened. *)
Record openai_chunk := mk_openai_chunk {
  oc_id : chunk_id;
  oc_object : jsstring;
  oc_created : Z;
  oc_model : jsval;
  oc_index : Z;
  oc_role : jsval;
  oc_content : jsval;
  oc_reasoning_content : jsval;
  oc_tool_calls : jsval;
  oc_logprobs : jsval;
  oc_finish_reason : jsval;
  oc_matched_stop : jsval;
  oc_usage : jsval
}.

(** The counters of a final local-runner frame. *)
Record ollama_stats := mk_stats {
  done_reason : jsstring;
  total_duration : Z;
  load_duration : Z;
  prompt_eval_count : Z;
  prompt_eval_duration : Z;
  eval_count : Z;
  eval_duration : Z
}.

(** A local-runner frame; [created_at] holds the date whose [toISOString()]
    is sent, [ol_stats] the fields only the final frame has. *)
Record ollama_chunk := mk_ollama_chunk {
  ol_model : jsval;
  ol_created_at : date;
  ol_role : jsstring;
  ol_content : jsval;
  ol_done : bool;
  ol_stats : option ollama_stats
}.

(** The error a [catch] clause holds: one an upstream request was rejected
    with, by its [message], or a TypeError raised by the handler's own code. *)
Inductive thrown :=
| UpstreamError (message : jsval)
| TypeError.

(** What a handler hands to the response. *)
Inductive write :=
| WRaw (s : jsstring)            (* res.write(s) *)
| WSse (c : openai_chunk)        (* res.write(`data: ${JSON.stringify(c)}\n\n`) *)
| WLine (c : ollama_chunk)       (* res.write(JSON.stringify(c) + '\n') *)
| WJson (v : jsval)              (* res.json(v) *)
| WError (error : jsstring) (details : thrown).
                                 (* res.json({ error, details: error.message }) *)

Record http_res := mk_res {
  status : Z;
  headers : list (jsstring * jsstring);
  headersSent : bool;
  body : list write;
  ended : bool
}.

Definition fresh_res : http_res := mk_res 200 [] false [] false.

Fixpoint header_set (k v : jsstring) (hs : list (jsstring * jsstring))
  : list (jsstring * jsstring) :=
  match hs with
  | [] => [(k, v)]
  | (k', v') :: r =>
      if str_eqb k k' then (k, v) :: r else (k', v') :: header_set k v r
  end.

(** [res.setHeader(k, v)]; Node rejects it with ERR_HTTP_HEADERS_SENT once
    the header block has gone out, which the first [res.write] causes. *)
Definition res_setHeader (k v : jsstring) (res : http_res) : result http_res :=
  if headersSent res then Throw
  else Ok (mk_res (status res) (header_set k v (headers res)) false
                  (body res) (ended res)).

Definition res_write (x : write) (res : http_res) : http_res :=
  mk_res (status res) (headers res) true (body res ++ [x]) (ended res).

Definition res_end (res : http_res) : http_res :=
  mk_res (status res) (headers res) true (body res) true.

Definition res_status (code : Z) (res : http_res) : http_res :=
  mk_res code (headers res) (headersSent res) (body res) (ended res).

(** [res.json(v)]: sends [v] as the whole body. *)
Definition res_json (v : jsval) (res : http_res) : http_res :=
  mk_res (status res) (headers res) true (body res ++ [WJson v]) true.

(* ===================================================================== *)
(** * config/config.js *)
(* ===================================================================== *)

Inductive api_style := style_openai | style_gemini.

(** The exported constants.  [API_STYLE] is [getApiStyle(URL_HOST)], computed
    once when the module loads; [DEFAULT_MODEL] is the empty string when the
    environment does not set it. *)
Record config := mk_config {
  URL_HOST : jsstring;
  API_KEY : jsstring;
  DEFAULT_MODEL : jsstring;
  API_STYLE : api_style;
  SUPPORTED_MODELS : list jsstring
}.

Definition is_gemini (cfg : config) : bool :=
  match API_STYLE cfg with style_gemini => true | style_openai => false end.

Definition mapModel (cfg : config) (name : jsval) : jsval :=
  if truthy (JStr (DEFAULT_MODEL cfg)) then JStr (DEFAULT_MODEL cfg) else name.

(** [mapModel(model || DEFAULT_MODEL)], as every handler calls it. *)
Definition chosenModel (cfg : config) (model : jsval) : jsval :=
  mapModel cfg (js_or model (JStr (DEFAULT_MODEL cfg))).

(** [stream && API_STYLE !== 'gemini']. *)
Definition wantsStream (cfg : config) (stream : jsval) : jsval :=
  js_and stream (JBool (negb (is_gemini cfg))).

(** [parseModelsEnv(str)], for the value of an environment variable: absent,
    or a string. *)
Definition parseModelsEnv (str : option jsstring) : jsval :=
  match str with
  | None => JNull
  | Some s =>
      if is_empty s then JNull
      else
        match (if starts_with (lit "[") (trim s) then JSON_parse s
               else None) with
        | Some parsed => parsed
        | None =>
            JArr (map JStr
                    (filter (fun x => negb (is_empty x))
                            (map trim (split_on 44 s []))))
        end
  end.


(* ===================================================================== *)
(** * utils/apiUtils.js *)
(* ===================================================================== *)

(** A text that is either a string taken as it is or the rendering of a
    value: [JSON.stringify(v)] in a message part, [String(v)] in an embedding
    input. *)
Inductive rendered :=
| AsIs (s : jsstring)
| Rendered (v : jsval).

(** One entry of [contents]: [{ role, parts: [{ text }, ...] }]. *)
Record content_entry := mk_entry {
  ce_role : jsval;
  ce_parts : list rendered
}.

Inductive response_type := rt_json | rt_stream.

(** [formattedInput] of [makeEmbeddingsRequest]. *)
Inductive formatted_input :=
| InputArray (items : list jsval)
| InputText (t : rendered).

(** The requests sent with [axios.post], by endpoint under [URL_HOST]. *)
Inductive axios_call :=
(* `${URL_HOST}/models/${model}:generateContent`,
   { contents, generationConfig: { maxOutputTokens } }; no responseType *)
| PostGenerateContent (model : jsval) (contents : list content_entry)
                      (maxOutputTokens : jsval)
(* `${URL_HOST}/chat/completions`,
   { model, messages, stream, max_tokens, ...otherParams } *)
| PostChatCompletions (model messages stream max_tokens : jsval)
                      (otherParams : list (jsstring * jsval))
                      (responseType : response_type) (timeout : Z)
(* `${URL_HOST}/models/${model}:embedContent`,
   { content: { parts: [{ text }] } } *)
| PostEmbedContent (model : jsval) (text : formatted_input)
(* `${URL_HOST}/embeddings`, { model, input, ...otherParams } *)
| PostEmbeddings (model : jsval) (input : formatted_input)
                 (otherParams : list (jsstring * jsval)).

Definition field (k : jsstring) (fs : list (jsstring * jsval)) : jsval :=
  match lookup k fs with Some x => x | None => JUndefined end.

(** [typeof v === 'string' ? v : render(v)]. *)
Definition text_of (v : jsval) : rendered :=
  match v with JStr s => AsIs s | _ => Rendered v end.

(** The callback of [messages.map] in the gemini branch. *)
Definition gemini_entry (m : jsval) : result content_entry :=
  rbind (get m (lit "role")) (fun role =>
  rbind (get m (lit "content")) (fun content =>
  Ok (mk_entry
        (if is_str role (lit "system") then JStr (lit "user") else role)
        [text_of content]))).

Fixpoint map_result {A B} (f : A -> result B) (l : list A) : result (list B) :=
  match l with
  | [] => Ok []
  | x :: r =>
      rbind (f x) (fun y => rbind (map_result f r) (fun ys => Ok (y :: ys)))
  end.

(** [(messages || []).map(...)]: a value that is truthy and not an array has
    no [map]. *)
Definition gemini_contents (messages : jsval) : result (list content_entry) :=
  match js_or messages (JArr []) with
  | JArr l => map_result gemini_entry l
  | _ => Throw
  end.

(** The request [makeChatRequest] posts; [Throw] when building the payload
    throws before anything is sent.  [stream] and [otherParams] have the
    defaults [true] and [{}]. *)
Definition makeChatRequest (cfg : config) (model messages stream : jsval)
                           (otherParams : list (jsstring * jsval))
  : result axios_call :=
  let stream := match stream with JUndefined => JBool true | v => v end in
  if is_gemini cfg then
    rbind (gemini_contents messages) (fun contents =>
    Ok (PostGenerateContent model contents
          (js_or (field (lit "max_tokens") otherParams) (JInt 2048))))
  else
    Ok (PostChatCompletions model messages stream
          (match lookup (lit "max_tokens") otherParams with
           | Some v => v
           | None => JInt 3000
           end)
          otherParams
          (if truthy stream then rt_stream else rt_json)
          (if truthy stream then 0 else 60000)).

(** The requests [makeCompletionRequest] posts. *)
Inductive completion_call :=
(* `${URL_HOST}/models/${model}:generateContent`,
   { contents: [{ role: 'user', parts: [{ text }] }],
     generationConfig: { maxOutputTokens } } *)
| PostGenerateText (model text maxOutputTokens : jsval)
(* `${URL_HOST}/chat/completions`, the payload by its properties *)
| PostCompletion (payload : list (jsstring * jsval))
                 (responseType : response_type).

Definition makeCompletionRequest (cfg : config) (model prompt stream : jsval)
                                 (otherParams : list (jsstring * jsval))
  : completion_call :=
  let stream := match stream with JUndefined => JBool true | v => v end in
  if is_gemini cfg then
    PostGenerateText model prompt
      (js_or (field (lit "max_tokens") otherParams) (JInt 1024))
  else
    PostCompletion
      (obj_spread
         [(lit "model", model);
          (lit "messages",
           JArr [JObj [(lit "role", JStr (lit "user"));
                       (lit "content", prompt)]]);
          (lit "stream", stream);
          (lit "max_tokens", JInt 500)]
         otherParams)
      (if truthy stream then rt_stream else rt_json).

Definition format_input (input : jsval) : formatted_input :=
  match input with
  | JArr l => InputArray l
  | _ => InputText (text_of input)
  end.

Definition makeEmbeddingsRequest (cfg : config) (model input : jsval)
                                 (otherParams : list (jsstring * jsval))
  : axios_call :=
  let formattedInput := format_input input in
  if is_gemini cfg then PostEmbedContent model formattedInput
  else PostEmbeddings model formattedInput otherParams.

(** What an awaited request comes to: the response's [data], or an error of
    which the handlers read [error.response?.status] ([None] when the error
    carries no response) and [error.message]. *)
Inductive attempt :=
| Resolved (data : jsval)
| Rejected (status : option Z) (message : jsval).

(* ===================================================================== *)
(** * utils/modelUtils.js *)
(* ===================================================================== *)







(** [list.map(f)] for a callback that reads the clock or draws numbers. *)
Fixpoint map_world {A B} (f : A -> world -> B * world) (l : list A) (w : world)
  : list B * world :=
  match l with
  | [] => ([], w)
  | x :: r =>
      let '(y, w1) := f x w in
      let '(ys, w2) := map_world f r w1 in
      (y :: ys, w2)
  end.


(** The object [transformChatResponse] returns; [cr_created_at] holds the
    date whose [toISOString()] is sent. *)
Record chat_response := mk_chat_response {
  cr_model : jsval;
  cr_created_at : date;
  cr_role : jsstring;
  cr_content : jsval;
  cr_done : bool;
  cr_total_duration : Z;
  cr_load_duration : Z;
  cr_prompt_eval_count : jsval;
  cr_prompt_eval_duration : Z;
  cr_eval_count : Z;
  cr_eval_duration : Z
}.

(** [vikeyResponse.choices[0].message.content]. *)
Definition first_message_content (vikeyResponse : jsval) : result jsval :=
  rbind (get vikeyResponse (lit "choices")) (fun choices =>
  rbind (get_index choices 0) (fun choice =>
  rbind (get choice (lit "message")) (fun message =>
  get message (lit "content")))).

Definition transformChatResponse (model messages vikeyResponse : jsval)
                                 (w : world)
  : result chat_response * world :=
  let '(created_at, w0) := new_Date w in
  match first_message_content vikeyResponse with
  | Throw => (Throw, w0)
  | Ok content =>
      let '(total, w1) := random_below 5000000000 w0 in
      let '(load, w2) := random_below 2000000 w1 in
      match js_length messages with
      | Throw => (Throw, w2)
      | Ok count =>
          let '(pdur, w3) := random_below 400000000 w2 in
          let '(ecount, w4) := random_below 300 w3 in
          let '(edur, w5) := random_below 5000000000 w4 in
          (Ok (mk_chat_response model created_at (lit "assistant") content
                 true total load count pdur (ecount + 100) edur),
           w5)
      end
  end.

(** One entry of the [/v1/models] catalog. *)
Definition openai_model (id : jsstring) (w : world) : jsval * world :=
  let '(now, w1) := Date_now w in
  (JObj [(lit "id", JStr id);
         (lit "object", JStr (lit "model"));
         (lit "created", JInt (now / 1000));
         (lit "owned_by", JStr (lit "library"))],
   w1).

Definition getOpenAIModelList (cfg : config) (w : world) : jsval * world :=
  let '(models, w1) := map_world openai_model (SUPPORTED_MODELS cfg) w in
  (JObj [(lit "data", JArr models); (lit "object", JStr (lit "list"))], w1).

(** [getOpenAIModel(model)], for the string a route parameter is. *)
Definition getOpenAIModel (cfg : config) (model : jsstring) (w : world)
  : jsval * world :=
  if existsb (str_eqb model) (SUPPORTED_MODELS cfg) then openai_model model w
  else (JNull, w).

(* ===================================================================== *)
(** * Streams and the retry trace *)
(* ===================================================================== *)

(** What a handler does towards the upstream, in order. *)
Inductive event :=
| EvRequest (call : axios_call)
| EvDelay (ms : Z).

(** The state the callbacks of one streamed response share: the [buffer]
    variable, the response, the environment, and the chunks the [catch]
    clause reported as problematic. *)
Record stream_state := mk_stream {
  buffer : jsstring;
  res : http_res;
  env : world;
  console : list jsstring
}.

Inductive completion :=
| Normal (st : stream_state)     (* the loop ran to its [break] *)
| Thrown (st : stream_state).    (* an exception left the loop *)

Definition with_buffer (b : jsstring) (st : stream_state) : stream_state :=
  mk_stream b (res st) (env st) (console st).

Definition with_res (r : http_res) (st : stream_state) : stream_state :=
  mk_stream (buffer st) r (env st) (console st).

Definition with_env (w : world) (st : stream_state) : stream_state :=
  mk_stream (buffer st) (res st) w (console st).

Definition stream_write (x : write) (st : stream_state) : stream_state :=
  with_res (res_write x (res st)) st.

(** The [catch] clause of a [data] callback. *)
Definition report (chunk : jsstring) (st : stream_state) : stream_state :=
  mk_stream (buffer st) (res st) (env st) (console st ++ [chunk]).

(** The events of a streamed upstream body. *)
Inductive stream_event :=
| Data (chunk : list byte)
| End.

Definition newline : N := 10%N.

(** ['data: [DONE]\n\n']. *)
Definition done_line : jsstring := lit "data: [DONE]" ++ [newline; newline].

(** The token count [generate] reports for a prompt: a number, or, for a
    [length] that is not a number, the same expression on that value. *)
Inductive prompt_count :=
| Count (n : Z)
| CountOf (len : jsval).

(** The object [generate] answers with. *)
Record generate_response := mk_generate_response {
  gr_model : jsval;
  gr_created_at : date;
  gr_response : jsval;
  gr_done : bool;
  gr_done_reason : jsstring;
  gr_context : list Z;
  gr_total_duration : Z;
  gr_load_duration : Z;
  gr_prompt_eval_count : prompt_count;
  gr_prompt_eval_duration : Z;
  gr_eval_count : Z;
  gr_eval_duration : Z
}.

(** How a handler leaves a request that it does not stream itself. *)
Inductive reply :=
| Answer (code : Z) (v : jsval)          (* res.status(code).json(v) *)
| AnswerChat (r : chat_response)         (* res.json(transformChatResponse(...)) *)
| AnswerGenerate (r : generate_response) (* res.json(ollamaResponse) *)
| Failure (error : jsstring) (e : thrown)
                 (* res.status(500).json({ error, details: error.message }) *)
| Piped                                  (* response.data.pipe(res) *)
| Streaming (chosen : jsval).            (* the data and end callbacks *)

(* ===================================================================== *)
(** * controllers/openaiController.js *)
(* ===================================================================== *)

Module OpenAI.

Definition maxRetries : Z := 3.

Definition fallback_model : jsval :=
  JStr (lit "meta-llama/llama-3.1-8b-instruct/fp-8").

(** The body of the [while (true)] loop of the [data] callback, from the
    empty-message test on, for one [message] cut from the buffer. *)
Definition on_message (model : jsval) (message : jsstring) (st : stream_state)
  : completion :=
  if is_empty (trim message) then Normal st
  else
    let jsonStr := strip_data_prefix message in
    if str_eqb (trim jsonStr) (lit "[DONE]") then
      Normal (stream_write (WRaw done_line) st)
    else
      match JSON_parse jsonStr with
      | None => Thrown st
      | Some vikeyResponse =>
          match get vikeyResponse (lit "id") with
          | Throw => Thrown st
          | Ok idv =>
              let '(id, w1) :=
                if truthy idv then (UpstreamId idv, env st)
                else
                  let '(now, wa) := Date_now (env st) in
                  let '(rnd, wb) := Math_random wa in
                  (SyntheticId now rnd, wb) in
              let '(now, w2) := Date_now w1 in
              let choice :=
                get_index_opt (get_opt vikeyResponse (lit "choices")) 0 in
              let delta := get_opt choice (lit "delta") in
              let streamResponse :=
                mk_openai_chunk id (lit "chat.completion.chunk")
                  (now / 1000)
                  (js_or model fallback_model)
                  0
                  (js_or (get_opt delta (lit "role")) JNull)
                  (js_or (get_opt delta (lit "content")) (JStr []))
                  JNull JNull JNull
                  (js_or (get_opt choice (lit "finish_reason")) JNull)
                  JNull JNull in
              Normal (stream_write (WSse streamResponse) (with_env w2 st))
          end
      end.

(** The [while (true)] loop.  Every round removes at least one code unit from
    the buffer, so [fuel] above the buffer's length is never used up. *)
Fixpoint drain (fuel : nat) (model : jsval) (st : stream_state) : completion :=
  match fuel with
  | O => Normal st
  | S f =>
      let messageEnd := indexOf (buffer st) newline in
      if messageEnd =? -1 then Normal st
      else
        let message := slice (buffer st) 0 messageEnd in
        let st1 := with_buffer (slice_from (buffer st) (messageEnd + 1)) st in
        match on_message model message st1 with
        | Normal st2 => drain f model st2
        | Thrown st2 => Thrown st2
        end
  end.

(** [response.data.on('data', chunk => { try { ... } catch (error) { ... } })] *)
Definition on_data (model : jsval) (chunk : list byte) (st : stream_state)
  : stream_state :=
  let st1 := with_buffer (buffer st ++ Buffer_toString chunk) st in
  match drain (S (List.length (buffer st1))) model st1 with
  | Normal st2 => st2
  | Thrown st2 => report (Buffer_toString chunk) st2
  end.

(** [response.data.on('end', () => { ... })] *)
Definition on_end (model : jsval) (st : stream_state) : stream_state :=
  let '(now, w1) := Date_now (env st) in
  let '(rnd, w2) := Math_random w1 in
  let '(now', w3) := Date_now w2 in
  let finalResponse :=
    mk_openai_chunk (SyntheticId now rnd) (lit "chat.completion.chunk")
      (now' / 1000)
      (js_or model fallback_model)
      0 JNull (JStr []) JNull JNull JNull
      (JStr (lit "stop")) (JInt 128009) JNull in
  let st1 := stream_write (WSse finalResponse) (with_env w3 st) in
  let st2 := stream_write (WRaw done_line) st1 in
  with_res (res_end (res st2)) st2.

Definition deliver (model : jsval) (ev : stream_event) (st : stream_state)
  : stream_state :=
  match ev with
  | Data chunk => on_data model chunk st
  | End => on_end model st
  end.

(** The callbacks applied to the events of the upstream body, in order. *)
Definition run_stream (model : jsval) (evs : list stream_event)
                      (st : stream_state) : stream_state :=
  fold_left (fun s ev => deliver model ev s) evs st.

(** The response of the outer [catch] clause. *)
Definition proxy_error : jsval :=
  JObj [(lit "error",
         JObj [(lit "message", JStr (lit "Failed to proxy request"));
               (lit "type", JStr (lit "server_error"))])].

(** How [chatCompletions] leaves the request: the response so far, what it
    did towards the upstream, and, when it streams, the [model] its callbacks
    close over. *)
Record handled := mk_handled {
  h_res : http_res;
  h_trace : list event;
  h_streaming : option jsval
}.

Definition fail_500 (r : http_res) (tr : list event) : handled :=
  mk_handled (res_json proxy_error (res_status 500 r)) tr None.

(** The statements of the inner [try] after the awaited request: the response
    as they leave it, and the [model] the stream callbacks close over or the
    exception that interrupts them.  When the call streams, [response.data]
    is the stream the callbacks are attached to. *)
Definition respond (model chosen wants data : jsval) (r : http_res)
  : http_res * result (option jsval) :=
  if truthy wants then
    match res_setHeader (lit "Content-Type") (lit "text/event-stream") r with
    | Throw => (r, Throw)
    | Ok r1 =>
        match res_setHeader (lit "Cache-Control") (lit "no-cache") r1 with
        | Throw => (r1, Throw)
        | Ok r2 =>
            match res_setHeader (lit "Connection") (lit "keep-alive") r2 with
            | Throw => (r2, Throw)
            | Ok r3 => (r3, Ok (Some model))
            end
        end
    end
  else
    match res_setHeader (lit "Content-Type") (lit "application/json") r with
    | Throw => (r, Throw)
    | Ok r1 =>
        match set data (lit "model") chosen with
        | Throw => (r1, Throw)
        | Ok data' => (res_json data' r1, Ok None)
        end
    end.

(** The [while (retryCount < maxRetries)] loop; [upstream n] is what the
    request of round [n] comes to.  Every round but the last leaves through
    a response; [fuel] above [maxRetries] is never used up. *)
Fixpoint retry_loop (fuel : nat) (cfg : config) (upstream : nat -> attempt)
    (model messages stream : jsval) (otherParams : list (jsstring * jsval))
    (retryCount : Z) (r : http_res) (tr : list event) : handled :=
  match fuel with
  | O => mk_handled r tr None
  | S f =>
      if retryCount <? maxRetries then
        let chosen := chosenModel cfg model in
        let wants := wantsStream cfg stream in
        match makeChatRequest cfg chosen messages wants otherParams with
        | Throw => fail_500 r tr
        | Ok call =>
            let tr1 := tr ++ [EvRequest call] in
            match upstream (Z.to_nat retryCount) with
            | Resolved data =>
                match respond model chosen wants data r with
                | (r1, Ok s) => mk_handled r1 tr1 s
                | (r1, Throw) => fail_500 r1 tr1
                end
            | Rejected st _ =>
                if match st with Some c => c =? 429 | None => false end
                   && (retryCount <? maxRetries - 1)
                then
                  retry_loop f cfg upstream model messages stream otherParams
                    (retryCount + 1) r (tr1 ++ [EvDelay 5000])
                else fail_500 r tr1
            end
        end
      else mk_handled r tr None
  end.

Definition chatCompletions (cfg : config) (upstream : nat -> attempt)
                           (req_body : jsval) : handled :=
  match get req_body (lit "model"), get req_body (lit "messages"),
        get req_body (lit "stream"),
        rest_without [lit "model"; lit "messages"; lit "stream"] req_body with
  | Ok model, Ok messages, Ok stream, Ok otherParams =>
      let stream := match stream with JUndefined => JBool false | v => v end in
      retry_loop (S (Z.to_nat maxRetries)) cfg upstream
        model messages stream otherParams 0 fresh_res []
  | _, _, _, _ => fail_500 fresh_res []
  end.

(** [parseBodyIfString]. *)
Definition parseBodyIfString (body : jsval) : jsval :=
  match body with
  | JStr s => match JSON_parse s with Some v => v | None => body end
  | _ => body
  end.

Definition invalid_request (message : jsstring) : jsval :=
  JObj [(lit "error",
         JObj [(lit "message", JStr message);
               (lit "type", JStr (lit "invalid_request_error"))])].

Definition embeddings_error : jsval :=
  JObj [(lit "error",
         JObj [(lit "message",
                JStr (lit "Failed to proxy request to intelligence.io"));
               (lit "type", JStr (lit "server_error"))])].

(** [embeddings]: the response and the requests made; [upstream] is what the
    embeddings request comes to. *)
Definition embeddings (cfg : config) (upstream : attempt) (req_body : jsval)
  : http_res * list axios_call :=
  let failed calls :=
    (res_json embeddings_error (res_status 500 fresh_res), calls) in
  let body := parseBodyIfString req_body in
  match get body (lit "model"), get body (lit "input") with
  | Ok model, Ok input =>
      if negb (truthy model) then
        (res_json
           (invalid_request (litq "Missing required parameter: 'model'"))
           (res_status 400 fresh_res), [])
      else if negb (truthy input) then
        (res_json
           (invalid_request (litq "Missing required parameter: 'input'"))
           (res_status 400 fresh_res), [])
      else
        match rest_without [lit "model"; lit "input"] body with
        | Throw => failed []
        | Ok otherParams =>
            let call := makeEmbeddingsRequest cfg model input otherParams in
            match upstream with
            | Resolved data => (res_json data fresh_res, [call])
            | Rejected _ _ => failed [call]
            end
        end
  | _, _ => failed []
  end.

(** [embed], the handler of [/v1/embed]. *)
Definition embed (cfg : config) (upstream : attempt) (req_body : jsval)
  : http_res * list axios_call :=
  let failed calls :=
    (res_json embeddings_error (res_status 500 fresh_res), calls) in
  let body := parseBodyIfString req_body in
  match get body (lit "model"), get body (lit "input") with
  | Ok model, Ok input =>
      if negb (truthy model) then
        (res_json
           (invalid_request (litq "Missing required parameter: 'model'"))
           (res_status 400 fresh_res), [])
      else if negb (truthy input) then
        (res_json
           (invalid_request (litq "Missing required parameter: 'input'"))
           (res_status 400 fresh_res), [])
      else
        match rest_without [lit "model"; lit "input"] body with
        | Throw => failed []
        | Ok otherParams =>
            let call := makeEmbeddingsRequest cfg model input otherParams in
            match upstream with
            | Resolved data => (res_json data fresh_res, [call])
            | Rejected _ _ => failed [call]
            end
        end
  | _, _ => failed []
  end.

(** [completions], the handler of [/v1/completions]. *)
Definition completions (cfg : config) (upstream : attempt) (req_body : jsval)
  : reply * list completion_call :=
  match get req_body (lit "model"), get req_body (lit "prompt"),
        get req_body (lit "stream"),
        rest_without [lit "model"; lit "prompt"; lit "stream"] req_body with
  | Ok model, Ok prompt, Ok stream, Ok otherParams =>
      let stream := match stream with JUndefined => JBool false | v => v end in
      let chosen := chosenModel cfg model in
      let wants := wantsStream cfg stream in
      let call := makeCompletionRequest cfg chosen prompt wants otherParams in
      match upstream with
      | Rejected _ _ => (Answer 500 proxy_error, [call])
      | Resolved data =>
          if truthy wants then (Piped, [call])
          else
            match set data (lit "model") chosen with
            | Throw => (Answer 500 proxy_error, [call])
            | Ok data' => (Answer 200 data', [call])
            end
      end
  | _, _, _, _ => (Answer 500 proxy_error, [])
  end.

(** [listModels], the handler of [/v1/models]. *)
Definition listModels (cfg : config) (w : world) : reply * world :=
  let '(list, w1) := getOpenAIModelList cfg w in (Answer 200 list, w1).

Definition model_not_found : jsval :=
  JObj [(lit "error",
         JObj [(lit "message", JStr (lit "Model not found"));
               (lit "type", JStr (lit "invalid_request_error"))])].

(** [getModel], the handler of [/v1/models/:model]. *)
Definition getModel (cfg : config) (model : jsstring) (w : world)
  : reply * world :=
  let '(modelInfo, w1) := getOpenAIModel cfg model w in
  if truthy modelInfo then (Answer 200 modelInfo, w1)
  else (Answer 404 model_not_found, w1).

End OpenAI.

(* ===================================================================== *)
(** * controllers/ollamaController.js *)
(* ===================================================================== *)

Module Ollama.

(** [res.header(k, v)] of Express, which sets the header through
    [res.setHeader]. *)
Definition res_header := res_setHeader.

(** The body of the [while (true)] loop of the [data] callback of [chat], from
    the empty-message test on, for one [message] cut from the buffer. *)
Definition on_message (chosen : jsval) (message : jsstring) (st : stream_state)
  : completion :=
  if is_empty (trim message) then Normal st
  else
    let jsonStr := strip_data_prefix message in
    if str_eqb (trim jsonStr) (lit "[DONE]") then Normal st
    else
      match JSON_parse jsonStr with
      | None => Thrown st
      | Some vikeyResponse =>
          let model :=
            js_or chosen (JStr (lit "meta-llama/Meta-Llama-3-8B-Instruct")) in
          let '(created_at, w1) := new_Date (env st) in
          let st1 := with_env w1 st in
          match rbind (get vikeyResponse (lit "choices")) (fun choices =>
                rbind (get_index choices 0) (fun choice =>
                rbind (get choice (lit "delta")) (fun delta =>
                get delta (lit "content")))) with
          | Throw => Thrown st1
          | Ok content =>
              let streamResponse :=
                mk_ollama_chunk model created_at (lit "assistant")
                  (js_or content (JStr [])) false None in
              match res_header (lit "Content-Type") (lit "application/json")
                               (res st1) with
              | Throw => Thrown st1
              | Ok r => Normal (stream_write (WLine streamResponse)
                                             (with_res r st1))
              end
          end
      end.

Fixpoint drain (fuel : nat) (chosen : jsval) (st : stream_state) : completion :=
  match fuel with
  | O => Normal st
  | S f =>
      let messageEnd := indexOf (buffer st) newline in
      if messageEnd =? -1 then Normal st
      else
        let message := slice (buffer st) 0 messageEnd in
        let st1 := with_buffer (slice_from (buffer st) (messageEnd + 1)) st in
        match on_message chosen message st1 with
        | Normal st2 => drain f chosen st2
        | Thrown st2 => Thrown st2
        end
  end.

Definition on_data (chosen : jsval) (chunk : list byte) (st : stream_state)
  : stream_state :=
  let st1 := with_buffer (buffer st ++ Buffer_toString chunk) st in
  match drain (S (List.length (buffer st1))) chosen st1 with
  | Normal st2 => st2
  | Thrown st2 => report (Buffer_toString chunk) st2
  end.

Definition on_end (chosen : jsval) (st : stream_state) : stream_state :=
  let '(created_at, w0) := new_Date (env st) in
  let '(total, w1) := random_below 20000000000 w0 in
  let '(load, w2) := random_below 3000000000 w1 in
  let '(pcount, w3) := random_below 50 w2 in
  let '(pdur, w4) := random_below 500000000 w3 in
  let '(ecount, w5) := random_below 1000 w4 in
  let '(edur, w6) := random_below 17000000000 w5 in
  let finalResponse :=
    mk_ollama_chunk (js_or chosen (JStr (lit "qwen2.5:0.5b"))) created_at
      (lit "assistant") (JStr []) true
      (Some (mk_stats (lit "stop") total load (pcount + 10) pdur
                      (ecount + 100) edur)) in
  let st1 := stream_write (WLine finalResponse) (with_env w6 st) in
  with_res (res_end (res st1)) st1.

Definition deliver (chosen : jsval) (ev : stream_event) (st : stream_state)
  : stream_state :=
  match ev with
  | Data chunk => on_data chosen chunk st
  | End => on_end chosen st
  end.

Definition run_stream (chosen : jsval) (evs : list stream_event)
                      (st : stream_state) : stream_state :=
  fold_left (fun s ev => deliver chosen ev s) evs st.

(** [req.body] as the body parsers leave it. *)
Inductive raw_body :=
| BodyValue (v : jsval)
| BodyBuffer (bytes : list byte).

(** [parseRequestBody].  A [Buffer] that does not parse stays the body; it is
    shown here by its elements. *)
Definition parseRequestBody (b : raw_body) : jsval :=
  let body :=
    match b with
    | BodyValue (JStr s) =>
        match JSON_parse s with Some v => v | None => JStr s end
    | BodyValue v => v
    | BodyBuffer bytes =>
        match JSON_parse (Buffer_toString bytes) with
        | Some v => v
        | None => JArr (map (fun x => JInt (Z.of_N (Byte.to_N x))) bytes)
        end
    end in
  js_or body (JObj []).

Definition missing (message : jsstring) : http_res :=
  res_json (JObj [(lit "error", JStr message)]) (res_status 400 fresh_res).

Definition missing_model : http_res :=
  missing (litq "Missing required parameter: 'model'").

Definition missing_text : http_res :=
  missing (litq "Missing required parameter: Either 'prompt' or 'input' must be provided").

Definition failed (e : thrown) : http_res :=
  mk_res 500 [] true [WError (lit "Failed request") e] true.

(** [body.input || body.prompt || ''], through the two intermediate
    constants. *)
Definition textToEmbed (body : jsval) : result jsval :=
  rbind (get body (lit "prompt")) (fun p =>
  rbind (get body (lit "input")) (fun i =>
  let prompt := js_or p i in
  let input := js_or i p in
  Ok (js_or (js_or input prompt) (JStr [])))).

(** The statements after the validation, shared by [embeddings] and
    [embed]. *)
Definition embed_request (cfg : config) (upstream : attempt)
                         (body model text : jsval)
  : http_res * list axios_call :=
  match rest_without [lit "model"; lit "prompt"; lit "input"] body with
  | Throw => (failed TypeError, [])
  | Ok otherParams =>
      let call := makeEmbeddingsRequest cfg model text otherParams in
      match upstream with
      | Rejected _ message => (failed (UpstreamError message), [call])
      | Resolved intelligenceResponse =>
          match rbind (get intelligenceResponse (lit "data")) (fun d =>
                rbind (get_index d 0) (fun first =>
                get first (lit "embedding"))) with
          | Throw => (failed TypeError, [call])
          | Ok e =>
              (res_json (JObj [(lit "embeddings", JArr [e])]) fresh_res,
               [call])
          end
      end
  end.

Definition embeddings (cfg : config) (upstream : attempt) (req_body : raw_body)
  : http_res * list axios_call :=
  let body := parseRequestBody req_body in
  match get body (lit "model"), textToEmbed body with
  | Ok m, Ok text =>
      let model := js_or m (JStr (lit "all-minilm")) in
      if negb (truthy model) then (missing_model, [])
      else if negb (truthy text) then (missing_text, [])
      else embed_request cfg upstream body model text
  | _, _ => (failed TypeError, [])
  end.

Definition embed (cfg : config) (upstream : attempt) (req_body : raw_body)
  : http_res * list axios_call :=
  let body := parseRequestBody req_body in
  match get body (lit "model"), textToEmbed body with
  | Ok m, Ok text =>
      let model := js_or m (JStr (lit "all-minilm")) in
      if negb (truthy text) then (missing_text, [])
      else embed_request cfg upstream body model text
  | _, _ => (failed TypeError, [])
  end.

(** [chat], up to the point where it answers or attaches the stream
    callbacks; [upstream] is what its one request comes to. *)
Definition chat (cfg : config) (upstream : attempt) (req_body : jsval)
                (w : world)
  : reply * list axios_call * world :=
  let fails e calls w' :=
    (Failure (lit "Failed to proxy request") e, calls, w') in
  match get req_body (lit "model"), get req_body (lit "messages"),
        get req_body (lit "stream"),
        rest_without [lit "model"; lit "messages"; lit "stream"] req_body with
  | Ok model, Ok messages, Ok stream, Ok otherParams =>
      let stream := match stream with JUndefined => JBool true | v => v end in
      let chosen := chosenModel cfg model in
      let wants := wantsStream cfg stream in
      match makeChatRequest cfg chosen messages wants otherParams with
      | Throw => fails TypeError [] w
      | Ok call =>
          match upstream with
          | Rejected _ message => fails (UpstreamError message) [call] w
          | Resolved data =>
              if truthy wants then (Streaming chosen, [call], w)
              else
                match set data (lit "model") chosen with
                | Throw => fails TypeError [call] w
                | Ok vikeyResponse =>
                    match transformChatResponse chosen messages
                                                vikeyResponse w with
                    | (Ok r, w') => (AnswerChat r, [call], w')
                    | (Throw, w') => fails TypeError [call] w'
                    end
                end
          end
      end
  | _, _, _, _ => fails TypeError [] w
  end.

(** [generateRandomContext(count)]. *)
Fixpoint generateRandomContext (count : nat) (w : world) : list Z * world :=
  match count with
  | O => ([], w)
  | S n =>
      let '(token, w1) := random_below 100000 w in
      let '(rest, w2) := generateRandomContext n w1 in
      (token :: rest, w2)
  end.

(** [prompt.length > 0 ? Math.floor(prompt.length / 10) : 39]. *)
Definition prompt_eval_count_of (prompt : jsval) : prompt_count :=
  match js_length prompt with
  | Ok (JNum q) =>
      if Qlt_le_dec 0 q then Count (Qfloor (q / 10)) else Count 39
  | Ok JUndefined | Ok JNull | Ok (JBool false) | Throw => Count 39
  | Ok (JBool true) => Count 0
  | Ok len => CountOf len
  end.

(** [generate]; [upstream] is what its one request comes to. *)
Definition generate (cfg : config) (upstream : attempt) (req_body : raw_body)
                    (w : world)
  : reply * list completion_call * world :=
  let fails e calls w' := (Failure (lit "Failed request") e, calls, w') in
  let body := parseRequestBody req_body in
  match get body (lit "model"), get body (lit "prompt"),
        get body (lit "stream"),
        rest_without [lit "model"; lit "prompt"; lit "stream"] body with
  | Ok m, Ok p, Ok s, Ok otherParams =>
      let model := chosenModel cfg m in
      let prompt := js_or p (JStr []) in
      let stream := match s with JBool false => false | _ => true end in
      let wants := stream && negb (is_gemini cfg) in
      let call :=
        makeCompletionRequest cfg model prompt (JBool wants) otherParams in
      match upstream with
      | Rejected _ message => fails (UpstreamError message) [call] w
      | Resolved vikeyResponse =>
          if wants then (Piped, [call], w)
          else
            let '(created_at, w0) := new_Date w in
            match first_message_content vikeyResponse with
            | Throw => fails TypeError [call] w0
            | Ok content =>
                let '(context, w1) := generateRandomContext 500 w0 in
                let '(total, w2) := random_below 15000000000 w1 in
                let '(load, w3) := random_below 60000000 w2 in
                let '(pdur, w4) := random_below 50000000 w3 in
                let '(ecount, w5) := random_below 500 w4 in
                let '(edur, w6) := random_below 14000000000 w5 in
                (AnswerGenerate
                   (mk_generate_response model created_at content true
                      (lit "stop") context total load
                      (prompt_eval_count_of prompt) pdur (ecount + 100) edur),
                 [call], w6)
            end
      end
  | _, _, _, _ => fails TypeError [] w
  end.

End Ollama.

(* ===================================================================== *)
(** * Contracts and sample inputs *)
(* ===================================================================== *)

(** The resolver in the words of its contract: the override when there is
    one, else the requested name, else the default. *)
Definition resolve_contract (override : option jsstring) (default : jsstring)
                            (requested : option jsstring) : jsstring :=
  match override with
  | Some forced => forced
  | None => match requested with Some name => name | None => default end
  end.

(** The process-wide override: [DEFAULT_MODEL] when the environment sets it. *)
Definition override (cfg : config) : option jsstring :=
  match DEFAULT_MODEL cfg with [] => None | s => Some s end.

(** A requested model name as the request body carries it. *)
Definition requested_value (requested : option jsstring) : jsval :=
  match requested with Some name => JStr name | None => JUndefined end.

Definition forced_config : config :=
  mk_config (lit "https://api.vikey.ai/v1") (lit "key") (lit "qwen2.5-30b")
            style_openai [lit "deepseek-r1:7b"].

(** Whether a request asks the upstream for a streamed body. *)
Definition streams (call : axios_call) : bool :=
  match call with
  | PostChatCompletions _ _ _ _ _ rt_stream _ => true
  | _ => false
  end.

Definition gemini_config : config :=
  mk_config (lit "https://generativelanguage.googleapis.com/v1beta") (lit "key")
            [] style_gemini [lit "gemini-pro"].

Definition sample_messages : list jsval :=
  [JObj [(lit "role", JStr (lit "system")); (lit "content", JStr (lit "be brief"))];
   JObj [(lit "role", JStr (lit "user"));
         (lit "content", JArr [JObj [(lit "type", JStr (lit "text"))]])]].



Definition openai_config : config :=
  mk_config (lit "https://api.vikey.ai/v1") (lit "key") [] style_openai
            [lit "deepseek-r1:7b"; lit "qwen2.5:7b-instruct-fp16"].



(** [{ "prompt": "hello" }], sent as text and parsed by the handler. *)
Definition prompt_only_request : Ollama.raw_body :=
  Ollama.BodyValue (JStr (litq "{'prompt': 'hello'}")).


(** The environment after [t] more readings of the clock and [d] more draws. *)
Definition advance (t d : nat) (w : world) : world :=
  mk_world (clock_ms w) (clock_date w) (random w) (ticks w + t) (draws w + d).

Definition sample_world : world :=
  mk_world (fun n => 1700000000000 + Z.of_nat n)
           (fun n => mk_date 2024 1 29 (Z.of_nat n))
           (fun n => (Z.of_nat (n mod 7) # 7))
           0 0.

(** The trace of [n] attempts at one request, a 5-second delay between
    consecutive attempts. *)
Fixpoint retry_trace (call : axios_call) (n : nat) : list event :=
  match n with
  | O => []
  | S O => [EvRequest call]
  | S n' => EvRequest call :: EvDelay 5000 :: retry_trace call n'
  end.



(** The upstream's rate-limit signal: a rejection with status 429. *)
Definition rate_limited (a : attempt) : bool :=
  match a with
  | Rejected (Some code) _ => code =? 429
  | _ => false
  end.


(** The handler gives up: the 500 answer of its outer [catch]. *)
Definition escalates (h : OpenAI.handled) : Prop :=
  status (OpenAI.h_res h) = 500
  /\ body (OpenAI.h_res h) = [WJson OpenAI.proxy_error]
  /\ OpenAI.h_streaming h = None.

(** [{ "model": "m1", "messages": [{ "role": "user", "content": "hi" }] }] *)
Definition chat_request : jsval :=
  JObj [(lit "model", JStr (lit "m1"));
        (lit "messages",
         JArr [JObj [(lit "role", JStr (lit "user"));
                     (lit "content", JStr (lit "hi"))]])].



(** A frame reports usage: it carries timing or usage counters. *)
Definition carries_usage (x : write) : bool :=
  match x with
  | WSse c => negb (nullish (oc_usage c))
  | WLine c => match ol_stats c with Some _ => true | None => false end
  | _ => false
  end.

(** The state of a streamed response before the first event. *)
Definition sample_stream : stream_state :=
  mk_stream [] fresh_res sample_world [].

(** The content a written frame carries, if it is a frame. *)
Definition frame_content (x : write) : option jsval :=
  match x with
  | WSse c => Some (oc_content c)
  | WLine c => Some (ol_content c)
  | _ => None
  end.

Definition contents_written (st : stream_state) : list (option jsval) :=
  map frame_content (body (res st)).

(** The line [data: {"choices":[{"delta":{"content":"hi"}}]}] and its
    terminator. *)
Definition delta_hi : jsstring :=
  litq "data: {'choices':[{'delta':{'content':'hi'}}]}" ++ [newline].

(** A line that is not JSON: the comment line some upstreams send to keep the
    connection alive. *)
Definition keep_alive : jsstring := lit ": keep-alive" ++ [newline].

(** The bytes of a delta line whose content is the one letter U+00E9, and
    its terminator; in UTF-8 the letter takes the two bytes C3 A9. *)
Definition delta_accent : list byte :=
  ascii_bytes (litq "data: {'choices':[{'delta':{'content':'")
  ++ [xc3; xa9]
  ++ ascii_bytes (litq "'}}]}" ++ [newline]).

(** The position between the two bytes of the letter. *)
Definition inside_accent : nat := 40.

(** The bytes of [delta_hi], cut in the middle of the line. *)
Definition delta_hi_head : list byte := firstn 20 (ascii_bytes delta_hi).
Definition delta_hi_tail : list byte := skipn 20 (ascii_bytes delta_hi).

(** Every boundary of a sequence of chunks falls between two characters: to
    decode a chunk and what follows it separately gives the text of the
    whole. *)
Fixpoint clean_split (chunks : list (list byte)) : Prop :=
  match chunks with
  | [] => True
  | c :: r =>
      Buffer_toString (c ++ List.concat r)
      = Buffer_toString c ++ Buffer_toString (List.concat r)
      /\ clean_split r
  end.

(** The decoder's state after a sequence of bytes, and what it has emitted
    by then. *)
Fixpoint utf8_state_after (st : utf8_state) (bytes : list N) : utf8_state :=
  match bytes with
  | [] => st
  | b :: r => utf8_state_after (snd (utf8_step st b)) r
  end.

Fixpoint utf8_emitted (st : utf8_state) (bytes : list N) : list N :=
  match bytes with
  | [] => []
  | b :: r => fst (utf8_step st b) ++ utf8_emitted (snd (utf8_step st b)) r
  end.

(** A chunk ends between two characters. *)
Definition complete_chunk (chunk : list byte) : Prop :=
  u_needed (utf8_state_after utf8_init (map Byte.to_N chunk)) = 0%nat.

Section Loop.

(** The loop of a [data] callback, for either surface's handling of one
    message. *)
Variable on_message : jsstring -> stream_state -> completion.

Fixpoint loop (fuel : nat) (st : stream_state) : completion :=
  match fuel with
  | O => Normal st
  | S f =>
      let messageEnd := indexOf (buffer st) newline in
      if messageEnd =? -1 then Normal st
      else
        let message := slice (buffer st) 0 messageEnd in
        let st1 := with_buffer (slice_from (buffer st) (messageEnd + 1)) st in
        match on_message message st1 with
        | Normal st2 => loop f st2
        | Thrown st2 => Thrown st2
        end
  end.

(** The callback on a chunk whose text is [text]. *)
Definition feed (text : jsstring) (st : stream_state) : stream_state :=
  let st1 := with_buffer (buffer st ++ text) st in
  match loop (S (List.length (buffer st1))) st1 with
  | Normal st2 => st2
  | Thrown st2 => report text st2
  end.

End Loop.

Definition lift (f : stream_state -> stream_state) (c : completion)
  : completion :=
  match c with
  | Normal s => Normal (f s)
  | Thrown s => Thrown (f s)
  end.

Definition state_of (c : completion) : stream_state :=
  match c with Normal s => s | Thrown s => s end.

(* ===================================================================== *)
(** * Further contracts and sample inputs *)
(* ===================================================================== *)

(** [st'] continues the response of [st]: what was written stays, in front
    of what was added, and the status is the same. *)
Definition continues (st st' : stream_state) : Prop :=
  (exists added, body (res st') = body (res st) ++ added)
  /\ status (res st') = status (res st).

(** A frame of the local-runner surface that is not the final one. *)
Definition is_delta (x : write) : bool :=
  match x with
  | WLine c => negb (ol_done c)
  | _ => false
  end.

Definition delta_frames (st : stream_state) : nat :=
  List.length (filter is_delta (body (res st))).

(** Either the header block is still to go out and no frame has been
    written, or it has gone out and at most one delta frame with it. *)
Definition one_delta (st : stream_state) : Prop :=
  (headersSent (res st) = false /\ delta_frames st = 0%nat)
  \/ (headersSent (res st) = true /\ (delta_frames st <= 1)%nat).

(** The bytes of [delta_hi] without its terminator. *)
Definition delta_hi_open : list byte := ascii_bytes (removelast delta_hi).

(** The handler has dealt with the request: the response is complete, or the
    stream callbacks are attached that will complete it. *)
Definition answered (h : OpenAI.handled) : Prop :=
  ended (OpenAI.h_res h) = true \/ exists m, OpenAI.h_streaming h = Some m.

(** The three names a chat handler takes out of the request body. *)
Definition chat_keys : list jsstring :=
  [lit "model"; lit "messages"; lit "stream"].

(** [{ "model": "m1", "messages": [...], "temperature": 0, "max_tokens": 64 }] *)
Definition tuned_request : list (jsstring * jsval) :=
  [(lit "model", JStr (lit "m1"));
   (lit "messages",
    JArr [JObj [(lit "role", JStr (lit "user"));
                (lit "content", JStr (lit "hi"))]]);
   (lit "temperature", JInt 0);
   (lit "max_tokens", JInt 64)].

(** An upstream that answers at once, with one choice. *)
Definition one_choice : list (jsstring * jsval) :=
  [(lit "id", JStr (lit "cmpl-1"));
   (lit "model", JStr (lit "upstream-name"));
   (lit "choices",
    JArr [JObj [(lit "message",
                 JObj [(lit "role", JStr (lit "assistant"));
                       (lit "content", JStr (lit "hello"))])]])].

Definition answers_at_once (n : nat) : attempt := Resolved (JObj one_choice).


(** A default of a destructuring pattern or of a parameter: [d] in the place
    of [undefined]. *)
Definition defaulted (d v : jsval) : jsval :=
  match v with JUndefined => d | v => v end.


(** [{ "model": "m1", "stream": false }] *)
Definition no_messages_request : jsval :=
  JObj [(lit "model", JStr (lit "m1")); (lit "stream", JBool false)].

(** Whether a handler leaves the request to the stream callbacks. *)
Definition is_streaming (r : reply) : bool :=
  match r with Streaming _ => true | _ => false end.

(** Whether [makeCompletionRequest] asks the upstream for a streamed body. *)
Definition completion_streams (call : completion_call) : bool :=
  match call with
  | PostCompletion _ rt_stream => true
  | _ => false
  end.

(** The properties of the payload of [makeCompletionRequest] that the spread
    of the extra parameters is laid over. *)
Definition completion_base (model prompt stream : jsval)
  : list (jsstring * jsval) :=
  [(lit "model", model);
   (lit "messages",
    JArr [JObj [(lit "role", JStr (lit "user")); (lit "content", prompt)]]);
   (lit "stream", stream);
   (lit "max_tokens", JInt 500)].


(** [{ "model": "m1", "prompt": "hello" }] *)
Definition completion_request : jsval :=
  JObj [(lit "model", JStr (lit "m1")); (lit "prompt", JStr (lit "hello"))].

(** The status a handler answers with, when it answers with a status and a
    JSON value. *)
Definition reply_code (r : reply) : option Z :=
  match r with Answer code _ => Some code | _ => None end.

(** The [id] of every entry of a [/v1/models] answer. *)
Definition listed_ids (r : reply) : list jsval :=
  match r with
  | Answer _ v =>
      match get_opt v (lit "data") with
      | JArr entries => map (fun e => get_opt e (lit "id")) entries
      | _ => []
      end
  | _ => []
  end.

(** The extra parameters of a request whose body names its own [messages]
    and token limit. *)
Definition own_messages : list (jsstring * jsval) :=
  [(lit "messages", JArr [JObj [(lit "role", JStr (lit "system"));
                                (lit "content", JStr (lit "be brief"))]]);
   (lit "max_tokens", JInt 64)].


(** An embeddings answer that carries two vectors. *)
Definition two_vectors : jsval :=
  JObj [(lit "data",
         JArr [JObj [(lit "embedding", JArr [JInt 1; JInt 2])];
               JObj [(lit "embedding", JArr [JInt 3; JInt 4])]])].

(** [intelligenceResponse.data[0].embedding]. *)
Definition first_embedding (intelligenceResponse : jsval) : result jsval :=
  rbind (get intelligenceResponse (lit "data")) (fun d =>
  rbind (get_index d 0) (fun first =>
  get first (lit "embedding"))).

(** [{ "model": "m", "prompt": "hello" }] as the body parser leaves it for
    a JSON request, and the same text as a plain-text request and as raw
    bytes. *)
Definition prompt_text : jsstring := litq "{'model':'m','prompt':'hello'}".

Definition prompt_object : jsval :=
  JObj [(lit "model", JStr (lit "m")); (lit "prompt", JStr (lit "hello"))].

(** A [MODELS] value in the comma form, with padding and an empty item. *)
Definition models_value : jsstring := lit " llama3:8b , ,qwen2.5:7b ".

(* ===================================================================== *)
(** * Properties *)
(* ===================================================================== *)

(** ** Strings *)

Lemma str_eqb_eq (a b : jsstring) : str_eqb a b = true <-> a = b.
Proof.
  revert b; induction a as [|x a IH]; intros [|y b]; simpl; split; intro H;
    try reflexivity; try discriminate.
  - apply andb_true_iff in H as [Hx Hr].
    apply N.eqb_eq in Hx. apply IH in Hr. now subst.
  - injection H as -> ->. now rewrite N.eqb_refl, (proj2 (IH b) eq_refl).
Qed.

Lemma str_eqb_refl (a : jsstring) : str_eqb a a = true.
Proof. now apply str_eqb_eq. Qed.

Lemma is_empty_nil (s : jsstring) : is_empty s = true <-> s = [].
Proof. destruct s; simpl; split; intro H; try reflexivity; discriminate. Qed.

(** ** The model identity resolver *)

(** C6. The model identity resolver, [mapModel(model || DEFAULT_MODEL)], is a
    total function of the configuration and the requested name: it agrees
    with the contract (override if configured, else the requested name, else
    the default) on every requested name, and with an override configured it
    returns the override whatever value the request carries. *)
Theorem mapModel_resolution (cfg : config) :
  (forall requested : option jsstring,
      chosenModel cfg (requested_value requested)
      = JStr (resolve_contract (override cfg) (DEFAULT_MODEL cfg) requested))
  /\ (forall (forced : jsstring) (v : jsval),
         override cfg = Some forced ->
         chosenModel cfg v = JStr forced /\ mapModel cfg v = JStr forced)
  /\ (forall name : jsval, override cfg = None -> mapModel cfg name = name).
Proof.
  unfold chosenModel, mapModel, override, js_or.
  destruct (DEFAULT_MODEL cfg) as [|c s] eqn:E; simpl.
  - split; [|split].
    + intros [name|]; simpl; [|reflexivity].
      destruct name; reflexivity.
    + intros forced v H; discriminate.
    + reflexivity.
  - split; [|split].
    + intros [name|]; reflexivity.
    + intros forced v H. injection H as <-. now split.
    + intros name H; discriminate.
Qed.

Lemma mapModel_resolution_witness :
  override forced_config = Some (lit "qwen2.5-30b")
  /\ chosenModel forced_config (JStr (lit "llama3")) = JStr (lit "qwen2.5-30b").
Proof.
  split; [reflexivity|].
  apply (proj1 (proj2 (mapModel_resolution forced_config))
               (lit "qwen2.5-30b") (JStr (lit "llama3"))).
  reflexivity.
Defined.

(** ** The request normalizer, content-generation style *)

Lemma wantsStream_gemini (cfg : config) (stream : jsval) :
  is_gemini cfg = true -> truthy (wantsStream cfg stream) = false.
Proof.
  intros G. unfold wantsStream, js_and. rewrite G.
  destruct (truthy stream) eqn:E; [reflexivity | exact E].
Qed.

Lemma gemini_entry_ok (m : jsval) :
  nullish m = false ->
  gemini_entry m
  = Ok (mk_entry
          (if is_str (get_opt m (lit "role")) (lit "system")
           then JStr (lit "user") else get_opt m (lit "role"))
          [text_of (get_opt m (lit "content"))]).
Proof.
  intros H. unfold gemini_entry, get_opt.
  destruct m; try discriminate; reflexivity.
Qed.

Lemma map_result_entries (ms : list jsval) :
  Forall (fun m => nullish m = false) ms ->
  exists contents,
    map_result gemini_entry ms = Ok contents
    /\ List.length contents = List.length ms
    /\ forall i m, nth_error ms i = Some m ->
         nth_error contents i
         = Some (mk_entry
                   (if is_str (get_opt m (lit "role")) (lit "system")
                    then JStr (lit "user") else get_opt m (lit "role"))
                   [text_of (get_opt m (lit "content"))]).
Proof.
  induction 1 as [|m ms Hm Hms (contents & E & L & N)].
  - exists []. repeat split. intros [|i] m H; discriminate.
  - eexists. simpl map_result. rewrite (gemini_entry_ok m Hm). simpl rbind.
    rewrite E. simpl rbind. split; [reflexivity|]. split.
    + simpl. now rewrite L.
    + intros [|i] m' H; simpl in *.
      * now injection H as <-.
      * now apply N.
Qed.

Lemma respond_not_streaming (model chosen wants data : jsval) (r : http_res) :
  truthy wants = false ->
  forall r' s, OpenAI.respond model chosen wants data r = (r', Ok s) -> s = None.
Proof.
  intros W r' s. unfold OpenAI.respond. rewrite W.
  destruct (res_setHeader _ _ r); [|discriminate].
  destruct (set data _ chosen); [|discriminate].
  now intros [= _ <-].
Qed.

Lemma retry_loop_gemini_never_streams (cfg : config) (upstream : nat -> attempt)
    (model messages stream : jsval) (otherParams : list (jsstring * jsval)) :
  is_gemini cfg = true ->
  forall fuel retryCount r tr,
    OpenAI.h_streaming
      (OpenAI.retry_loop fuel cfg upstream model messages stream otherParams
                         retryCount r tr) = None.
Proof.
  intros G. induction fuel as [|f IH]; intros retryCount r tr; simpl;
    [reflexivity|].
  destruct (retryCount <? OpenAI.maxRetries); [|reflexivity].
  destruct (makeChatRequest _ _ _ _ _); [|reflexivity].
  destruct (upstream _) as [data|st msg].
  - destruct (OpenAI.respond _ _ _ _ _) as [r1 [s|]] eqn:E; [|reflexivity].
    simpl. eapply respond_not_streaming; [|exact E].
    now apply wantsStream_gemini.
  - destruct (_ && _); [apply IH | reflexivity].
Qed.

(** C7. Under the content-generation upstream style, [makeChatRequest] posts
    one [generateContent] request whose [contents] has one entry per inbound
    message, in order: the entry's role is the message's role, with [system]
    replaced by [user], and its single text part is the content itself when
    that is a string and its JSON rendering otherwise.  The request does not
    depend on the caller's stream flag and never asks for a streamed body,
    the flag the controllers pass on is falsy, and [chatCompletions] never
    enters its streaming branch. *)
Theorem gemini_chat_request_shape (cfg : config) (model : jsval)
    (ms : list jsval) (stream : jsval) (otherParams : list (jsstring * jsval)) :
  API_STYLE cfg = style_gemini ->
  Forall (fun m => nullish m = false) ms ->
  exists contents maxOutputTokens,
    makeChatRequest cfg model (JArr ms) stream otherParams
    = Ok (PostGenerateContent model contents maxOutputTokens)
    /\ List.length contents = List.length ms
    /\ (forall i m, nth_error ms i = Some m ->
          exists e, nth_error contents i = Some e
            /\ (get_opt m (lit "role") = JStr (lit "system") ->
                ce_role e = JStr (lit "user"))
            /\ (get_opt m (lit "role") <> JStr (lit "system") ->
                ce_role e = get_opt m (lit "role"))
            /\ (forall s, get_opt m (lit "content") = JStr s ->
                ce_parts e = [AsIs s])
            /\ ((forall s, get_opt m (lit "content") <> JStr s) ->
                ce_parts e = [Rendered (get_opt m (lit "content"))]))
    /\ (forall stream',
          makeChatRequest cfg model (JArr ms) stream' otherParams
          = makeChatRequest cfg model (JArr ms) stream otherParams)
    /\ streams (PostGenerateContent model contents maxOutputTokens) = false
    /\ truthy (wantsStream cfg stream) = false
    /\ (forall upstream req_body,
          OpenAI.h_streaming (OpenAI.chatCompletions cfg upstream req_body)
          = None).
Proof.
  intros S Hms.
  assert (G : is_gemini cfg = true) by (unfold is_gemini; now rewrite S).
  destruct (map_result_entries ms Hms) as (contents & E & L & N).
  exists contents, (js_or (field (lit "max_tokens") otherParams) (JInt 2048)).
  assert (Q : forall st, makeChatRequest cfg model (JArr ms) st otherParams
            = Ok (PostGenerateContent model contents
                    (js_or (field (lit "max_tokens") otherParams) (JInt 2048)))).
  { intros st. unfold makeChatRequest. rewrite G.
    unfold gemini_contents, js_or. simpl truthy. cbv iota. now rewrite E. }
  split; [apply Q|]. split; [exact L|]. split.
  - intros i m H. eexists. split; [apply (N i m H)|]. simpl.
    split; [|split; [|split]].
    + intros ->. reflexivity.
    + intros NS. destruct (is_str _ _) eqn:I; [|reflexivity].
      exfalso. apply NS. unfold is_str in I.
      destruct (get_opt m (lit "role")); try discriminate.
      apply str_eqb_eq in I. now subst.
    + intros s ->. reflexivity.
    + intros NS. destruct (get_opt m (lit "content")); try reflexivity.
      now destruct (NS s).
  - split; [intros st'; now rewrite !Q|]. split; [reflexivity|].
    split; [now apply wantsStream_gemini|].
    intros upstream req_body. unfold OpenAI.chatCompletions.
    destruct (get req_body (lit "model")); [|reflexivity].
    destruct (get req_body (lit "messages")); [|reflexivity].
    destruct (get req_body (lit "stream")); [|reflexivity].
    destruct (rest_without _ req_body); [|reflexivity].
    now apply retry_loop_gemini_never_streams.
Qed.

Lemma gemini_chat_request_shape_witness :
  exists contents maxOutputTokens,
    makeChatRequest gemini_config (JStr (lit "gemini-pro"))
                    (JArr sample_messages) (JBool true) []
    = Ok (PostGenerateContent (JStr (lit "gemini-pro")) contents
                              maxOutputTokens)
    /\ List.length contents = 2%nat.
Proof.
  destruct (gemini_chat_request_shape gemini_config (JStr (lit "gemini-pro"))
              sample_messages (JBool true) [] eq_refl)
    as (contents & mx & E & L & _).
  - repeat constructor.
  - exists contents, mx. split; [exact E | exact L].
Defined.

(** ** Embeddings, OpenAI-compatible surface *)

Lemma get_not_nullish (v : jsval) (k : jsstring) :
  nullish v = false -> get v k = Ok (get_opt v k).
Proof. unfold get_opt. destruct v; simpl; intros H; try discriminate; reflexivity. Qed.


Lemma rest_without_not_nullish (ks : list jsstring) (v : jsval) :
  nullish v = false -> exists rest, rest_without ks v = Ok rest.
Proof. intros H. unfold rest_without. rewrite H. eauto. Qed.




(** ** Embeddings, local-runner surface *)

Lemma parseRequestBody_not_nullish (b : Ollama.raw_body) :
  nullish (Ollama.parseRequestBody b) = false.
Proof.
  unfold Ollama.parseRequestBody, js_or.
  match goal with |- nullish (if truthy ?x then _ else _) = _ =>
    destruct x as [| |[|]|q|s|l|fs] end; simpl;
    try reflexivity; match goal with |- nullish (if ?c then _ else _) = _ =>
                       destruct c end; reflexivity.
Qed.

Lemma default_model_truthy (m : jsval) :
  truthy (js_or m (JStr (lit "all-minilm"))) = true.
Proof. unfold js_or. destruct (truthy m) eqn:E; [exact E | reflexivity]. Qed.





(** ** The synthesized catalog *)

Lemma advance_advance (a b c d : nat) (w : world) :
  advance a b (advance c d w) = advance (c + a) (d + b) w.
Proof. unfold advance; simpl. f_equal; lia. Qed.

Lemma advance_zero (w : world) : advance 0 0 w = w.
Proof. destruct w; unfold advance; simpl. f_equal; lia. Qed.

Lemma unit_draws_advance (t d : nat) (w : world) :
  unit_draws w -> unit_draws (advance t d w).
Proof. intros H n. apply H. Qed.

Lemma random_below_spec (n : Z) (w : world) :
  unit_draws w -> 0 < n ->
  0 <= fst (random_below n w) < n
  /\ snd (random_below n w) = advance 0 1 w.
Proof.
  intros U Hn. unfold random_below, Math_random.
  cbv beta iota zeta. cbn [fst snd].
  destruct (U (draws w)) as [H0 H1]. split; [split|].
  - change 0 with (Qfloor 0). apply Qfloor_resp_le.
    apply Qmult_le_0_compat; [exact H0|].
    change 0%Q with (inject_Z 0). rewrite <- Zle_Qle. lia.
  - rewrite Zlt_Qlt.
    eapply Qle_lt_trans; [apply Qfloor_le|].
    rewrite <- (Qmult_1_l (inject_Z n)) at 2.
    apply Qmult_lt_compat_r; [|exact H1].
    change 0%Q with (inject_Z 0). now rewrite <- Zlt_Qlt.
  - unfold advance. f_equal; lia.
Qed.








Lemma sample_world_unit : unit_draws sample_world.
Proof.
  intros n. unfold sample_world, random.
  pose proof (Nat.mod_upper_bound n 7 ltac:(lia)) as B.
  split; [unfold Qle | unfold Qlt]; cbn [Qnum Qden]; lia.
Qed.


(** ** The retry policy of [chatCompletions] *)



Lemma retry_loop_step (f : nat) (cfg : config) (upstream : nat -> attempt)
    (model messages stream : jsval) (otherParams : list (jsstring * jsval))
    (retryCount : Z) (r : http_res) (tr : list event) (call : axios_call) :
  retryCount < OpenAI.maxRetries ->
  makeChatRequest cfg (chosenModel cfg model) messages (wantsStream cfg stream)
                  otherParams = Ok call ->
  OpenAI.retry_loop (S f) cfg upstream model messages stream otherParams
                    retryCount r tr
  = match upstream (Z.to_nat retryCount) with
    | Resolved data =>
        match OpenAI.respond model (chosenModel cfg model)
                             (wantsStream cfg stream) data r with
        | (r1, Ok s) => OpenAI.mk_handled r1 (tr ++ [EvRequest call]) s
        | (r1, Throw) => OpenAI.fail_500 r1 (tr ++ [EvRequest call])
        end
    | Rejected st _ =>
        if rate_limited (upstream (Z.to_nat retryCount))
           && (retryCount <? OpenAI.maxRetries - 1)
        then OpenAI.retry_loop f cfg upstream model messages stream otherParams
               (retryCount + 1) r
               ((tr ++ [EvRequest call]) ++ [EvDelay 5000])
        else OpenAI.fail_500 r (tr ++ [EvRequest call])
    end.
Proof.
  intros L E. cbn [OpenAI.retry_loop].
  apply Z.ltb_lt in L. rewrite L, E.
  destruct (upstream (Z.to_nat retryCount)) as [data|[c|] msg]; reflexivity.
Qed.

Lemma fail_500_escalates (r : http_res) (tr : list event) :
  body r = [] -> escalates (OpenAI.fail_500 r tr).
Proof. intros B. unfold escalates, OpenAI.fail_500; cbn. now rewrite B. Qed.




(** ** The stream translator: lines *)

Lemma trim_start_nil (s : jsstring) :
  trim_start s = [] <-> forallb is_js_space s = true.
Proof.
  induction s as [|c r IH]; simpl; [split; reflexivity|].
  destruct (is_js_space c); simpl; [exact IH|].
  split; discriminate.
Qed.

Lemma trim_start_head (s : jsstring) (c : N) (r : jsstring) :
  trim_start s = c :: r -> is_js_space c = false.
Proof.
  induction s as [|x s IH]; simpl; [discriminate|].
  destruct (is_js_space x) eqn:E; [exact IH|].
  now intros [= <- _].
Qed.

Lemma forallb_rev {A} (f : A -> bool) (l : list A) :
  forallb f (rev l) = forallb f l.
Proof.
  induction l as [|x l IH]; simpl; [reflexivity|].
  rewrite forallb_app, IH. simpl. rewrite andb_true_r. apply andb_comm.
Qed.

Lemma trim_nil (s : jsstring) :
  trim s = [] <-> forallb is_js_space s = true.
Proof.
  unfold trim. split.
  - intros H. apply (f_equal (@rev N)) in H. rewrite rev_involutive in H.
    simpl in H. apply trim_start_nil in H. rewrite forallb_rev in H.
    destruct (trim_start s) as [|c r] eqn:E; [now apply trim_start_nil|].
    apply trim_start_head in E. simpl in H. rewrite E in H. discriminate.
  - intros H. apply trim_start_nil in H. now rewrite H.
Qed.

Lemma forallb_skipn {A} (f : A -> bool) (n : nat) (l : list A) :
  forallb f l = true -> forallb f (skipn n l) = true.
Proof.
  revert l; induction n as [|n IH]; intros [|x l]; simpl; auto.
  intros H. apply andb_true_iff in H as [_ H]. now apply IH.
Qed.

Lemma trim_strip_nonempty (message : jsstring) :
  is_empty (trim (strip_data_prefix message)) = false ->
  is_empty (trim message) = false.
Proof.
  intros H. destruct (is_empty (trim message)) eqn:E; [|reflexivity].
  apply is_empty_nil, trim_nil in E.
  assert (T : trim (strip_data_prefix message) = []).
  { apply trim_nil. unfold strip_data_prefix.
    destruct (starts_with _ _); [now apply forallb_skipn | exact E]. }
  now rewrite T in H.
Qed.

Lemma indexOf_lower (s : jsstring) (c : N) : -1 <= indexOf s c.
Proof.
  induction s as [|x s IH]; simpl; [lia|].
  destruct (N.eqb x c); [lia|].
  destruct (indexOf s c =? -1); lia.
Qed.

Lemma indexOf_none_app (s rest : jsstring) (c : N) :
  indexOf s c = -1 ->
  indexOf (s ++ c :: rest) c = Z.of_nat (List.length s).
Proof.
  induction s as [|x s IH]; simpl.
  - now rewrite N.eqb_refl.
  - destruct (N.eqb x c); [discriminate|].
    pose proof (indexOf_lower s c) as B.
    destruct (indexOf s c =? -1) eqn:E; [|intros H; lia].
    intros _. apply Z.eqb_eq in E. rewrite (IH E).
    destruct (Z.of_nat (List.length s) =? -1) eqn:E'; lia.
Qed.

Lemma cut_line (s rest : jsstring) :
  indexOf s newline = -1 ->
  let b := s ++ newline :: rest in
  (indexOf b newline =? -1) = false
  /\ slice b 0 (indexOf b newline) = s
  /\ slice_from b (indexOf b newline + 1) = rest.
Proof.
  intros H b. subst b. rewrite (indexOf_none_app s rest newline H).
  split; [apply Z.eqb_neq; lia|]. unfold slice, slice_from. split.
  - rewrite Nat2Z.id. change (Z.to_nat 0) with 0%nat. simpl skipn.
    rewrite Nat.sub_0_r, firstn_app, Nat.sub_diag, firstn_all. simpl.
    apply app_nil_r.
  - replace (Z.to_nat (Z.of_nat (List.length s) + 1))
      with (List.length s + 1)%nat by lia.
    rewrite skipn_app, skipn_all2 by lia.
    replace (List.length s + 1 - List.length s)%nat with 1%nat by lia.
    reflexivity.
Qed.

(** C3. A complete line that is the end-of-stream sentinel, [[DONE]] with or
    without the [data: ] prefix (and whatever white space surrounds it), is
    answered on the OpenAI-compatible surface by writing the sentinel line
    ['data: [DONE]\n\n'] and nothing else, and on the local-runner surface by
    writing nothing; in both cases the loop takes the line off the buffer and
    goes on with what follows it. *)
Theorem done_sentinel_by_surface (model chosen : jsval) (message : jsstring)
    (st : stream_state) :
  trim (strip_data_prefix message) = lit "[DONE]" ->
  OpenAI.on_message model message st
  = Normal (stream_write (WRaw done_line) st)
  /\ Ollama.on_message chosen message st = Normal st
  /\ (indexOf message newline = -1 ->
      forall (rest : jsstring) (fuel : nat),
        OpenAI.drain (S fuel) model
          (with_buffer (message ++ newline :: rest) st)
        = OpenAI.drain fuel model
            (stream_write (WRaw done_line) (with_buffer rest st))
        /\ Ollama.drain (S fuel) chosen
             (with_buffer (message ++ newline :: rest) st)
           = Ollama.drain fuel chosen (with_buffer rest st)).
Proof.
  intros H.
  assert (E : is_empty (trim message) = false).
  { apply trim_strip_nonempty. now rewrite H. }
  assert (O : forall s, OpenAI.on_message model message s
                        = Normal (stream_write (WRaw done_line) s)).
  { intros s. unfold OpenAI.on_message. rewrite E, H. reflexivity. }
  assert (L : forall s, Ollama.on_message chosen message s = Normal s).
  { intros s. unfold Ollama.on_message. rewrite E, H. reflexivity. }
  split; [apply O|]. split; [apply L|].
  intros NL rest fuel.
  destruct (cut_line message rest NL) as (I & Sl & Sf).
  cbn [OpenAI.drain Ollama.drain with_buffer buffer].
  rewrite I, Sl, Sf.
  change (with_buffer rest (with_buffer (message ++ newline :: rest) st))
    with (with_buffer rest st).
  now rewrite O, L.
Qed.

Lemma done_sentinel_by_surface_witness :
  OpenAI.on_message (JStr (lit "m1")) (lit "data: [DONE]") sample_stream
  = Normal (stream_write (WRaw done_line) sample_stream)
  /\ Ollama.on_message (JStr (lit "m1")) (lit "data: [DONE]") sample_stream
     = Normal sample_stream.
Proof.
  destruct (done_sentinel_by_surface (JStr (lit "m1")) (JStr (lit "m1"))
              (lit "data: [DONE]") sample_stream eq_refl) as (O & L & _).
  split; [exact O | exact L].
Defined.

(** ** The stream translator: end of stream *)

Lemma random_below_run (n : Z) (w : world) :
  unit_draws w -> 0 < n ->
  exists x, random_below n w = (x, advance 0 1 w) /\ 0 <= x < n.
Proof.
  intros U Hn. destruct (random_below_spec n w U Hn) as [B W].
  destruct (random_below n w) as [x w']. cbn [fst snd] in *. subst w'.
  now exists x.
Qed.

(** C5, as stated, fails on the OpenAI-compatible surface: no frame written
    at the end of the stream carries timing or usage counters there. *)
Lemma openai_terminal_frame_without_usage :
  ~ (forall (model : jsval) (st : stream_state),
        exists x, In x (body (res (OpenAI.on_end model st)))
                  /\ carries_usage x = true).
Proof.
  intros H. destruct (H (JStr (lit "m1")) sample_stream) as (x & I & C).
  cbn in I. destruct I as [<- | [<- | []]]; discriminate.
Qed.

(** C5, amended. At the end of the upstream stream each surface writes
    exactly one terminal frame and then ends the response.  On the
    OpenAI-compatible surface the frame has [finish_reason] ["stop"], an empty
    delta, a synthetic [id] and [created], the fixed [matched_stop] 128009 and
    [usage: null], and the sentinel line follows it.  On the local-runner
    surface the frame has [done: true], [done_reason] ["stop"] and six
    counters drawn at random ([Math.random()] yielding numbers of [0, 1)):
    [total_duration] below 20000000000, [load_duration] below 3000000000,
    [prompt_eval_count] in [10, 60), [prompt_eval_duration] below 500000000,
    [eval_count] in [100, 1100), [eval_duration] below 17000000000. *)
Theorem stream_end_terminal_frame (model chosen : jsval) (st : stream_state) :
  (exists c,
      body (res (OpenAI.on_end model st))
      = body (res st) ++ [WSse c; WRaw done_line]
      /\ oc_finish_reason c = JStr (lit "stop")
      /\ oc_role c = JNull /\ oc_content c = JStr []
      /\ oc_matched_stop c = JInt 128009
      /\ oc_usage c = JNull
      /\ oc_id c = SyntheticId (clock_ms (env st) (ticks (env st)))
                               (random (env st) (draws (env st)))
      /\ oc_created c = clock_ms (env st) (S (ticks (env st))) / 1000)
  /\ ended (res (OpenAI.on_end model st)) = true
  /\ ended (res (Ollama.on_end chosen st)) = true
  /\ (unit_draws (env st) ->
      exists c s,
        body (res (Ollama.on_end chosen st)) = body (res st) ++ [WLine c]
        /\ ol_done c = true
        /\ ol_content c = JStr []
        /\ ol_stats c = Some s
        /\ done_reason s = lit "stop"
        /\ 0 <= total_duration s < 20000000000
        /\ 0 <= load_duration s < 3000000000
        /\ 10 <= prompt_eval_count s < 60
        /\ 0 <= prompt_eval_duration s < 500000000
        /\ 100 <= eval_count s < 1100
        /\ 0 <= eval_duration s < 17000000000).
Proof.
  split; [|split; [|split]].
  - eexists. split.
    { unfold OpenAI.on_end, Date_now, Math_random. cbv beta iota zeta.
      cbn [stream_write with_res with_env res res_write res_end body].
      rewrite <- app_assoc. reflexivity. }
    repeat split.
  - reflexivity.
  - unfold Ollama.on_end.
    destruct (new_Date (env st)) as [d w0].
    destruct (random_below 20000000000 w0) as [a w1].
    destruct (random_below 3000000000 w1) as [b w2].
    destruct (random_below 50 w2) as [c w3].
    destruct (random_below 500000000 w3) as [e w4].
    destruct (random_below 1000 w4) as [f w5].
    destruct (random_below 17000000000 w5) as [g w6].
    reflexivity.
  - intros U. unfold Ollama.on_end, new_Date. cbv beta iota zeta.
    set (w0 := mk_world _ _ _ (S (ticks (env st))) _).
    assert (U0 : unit_draws w0) by (intros n; apply U).
    destruct (random_below_run 20000000000 w0 U0 ltac:(lia)) as (a & -> & Ha).
    pose proof (unit_draws_advance 0 1 _ U0) as U1.
    destruct (random_below_run 3000000000 _ U1 ltac:(lia)) as (b & -> & Hb).
    pose proof (unit_draws_advance 0 1 _ U1) as U2.
    destruct (random_below_run 50 _ U2 ltac:(lia)) as (c & -> & Hc).
    pose proof (unit_draws_advance 0 1 _ U2) as U3.
    destruct (random_below_run 500000000 _ U3 ltac:(lia)) as (e & -> & He).
    pose proof (unit_draws_advance 0 1 _ U3) as U4.
    destruct (random_below_run 1000 _ U4 ltac:(lia)) as (f & -> & Hf).
    pose proof (unit_draws_advance 0 1 _ U4) as U5.
    destruct (random_below_run 17000000000 _ U5 ltac:(lia)) as (g & -> & Hg).
    do 2 eexists. split; [reflexivity|].
    repeat (split; [reflexivity|]). cbn. lia.
Qed.

Lemma stream_end_terminal_frame_witness :
  exists c s,
    body (res (Ollama.on_end (JStr (lit "m1")) sample_stream)) = [WLine c]
    /\ ol_stats c = Some s
    /\ 0 <= total_duration s < 20000000000.
Proof.
  destruct (proj2 (proj2 (proj2
              (stream_end_terminal_frame (JStr (lit "m1")) (JStr (lit "m1"))
                 sample_stream))) sample_world_unit)
    as (c & s & B & _ & _ & S & _ & T & _).
  exists c, s. split; [exact B|]. split; [exact S | exact T].
Defined.

(** ** The stream translator: chunks *)

(** C2. The claim fails where a chunk boundary falls inside a character.  The
    bytes of one delta line whose content is the letter U+00E9, delivered
    whole, give a frame with that letter; the same bytes delivered in two
    chunks that part between the letter's two bytes give a frame with two
    U+FFFD in its place, on either surface. *)
Theorem split_inside_character_changes_frames :
  firstn inside_accent delta_accent ++ skipn inside_accent delta_accent
  = delta_accent
  /\ contents_written
       (OpenAI.run_stream (JStr (lit "m1")) [Data delta_accent; End]
                          sample_stream)
     = [Some (JStr [233%N]); Some (JStr []); None]
  /\ contents_written
       (OpenAI.run_stream (JStr (lit "m1"))
          [Data (firstn inside_accent delta_accent);
           Data (skipn inside_accent delta_accent); End]
          sample_stream)
     = [Some (JStr [65533%N; 65533%N]); Some (JStr []); None]
  /\ contents_written
       (Ollama.run_stream (JStr (lit "m1")) [Data delta_accent; End]
                          sample_stream)
     = [Some (JStr [233%N]); Some (JStr [])]
  /\ contents_written
       (Ollama.run_stream (JStr (lit "m1"))
          [Data (firstn inside_accent delta_accent);
           Data (skipn inside_accent delta_accent); End]
          sample_stream)
     = [Some (JStr [65533%N; 65533%N]); Some (JStr [])].
Proof. repeat split; vm_compute; reflexivity. Qed.

(** C4. The claim fails for the lines that follow a malformed line in the
    same chunk.  When a line that is not JSON and a well-formed delta line
    arrive in one chunk and the stream then ends, the chunk is reported, the
    delta line stays in the buffer and no frame is written for it: the
    client gets the terminal frame and the sentinel only.  Delivered in a
    chunk of its own, the same delta line gives its frame. *)
Theorem malformed_line_strands_later_lines :
  let together :=
    OpenAI.run_stream (JStr (lit "m1"))
      [Data (ascii_bytes (keep_alive ++ delta_hi)); End] sample_stream in
  let apart :=
    OpenAI.run_stream (JStr (lit "m1"))
      [Data (ascii_bytes keep_alive); Data (ascii_bytes delta_hi); End]
      sample_stream in
  JSON_parse (strip_data_prefix (lit ": keep-alive")) = None
  /\ contents_written together = [Some (JStr []); None]
  /\ buffer together = delta_hi
  /\ console together = [keep_alive ++ delta_hi]
  /\ contents_written apart = [Some (JStr (lit "hi")); Some (JStr []); None]
  /\ buffer apart = [].
Proof. repeat split; vm_compute; reflexivity. Qed.

(** *** Decoding chunk by chunk *)

Lemma utf8_run_app (st : utf8_state) (a b : list N) :
  utf8_run st (a ++ b)
  = utf8_emitted st a ++ utf8_run (utf8_state_after st a) b.
Proof.
  revert st; induction a as [|x a IH]; intros st; simpl; [reflexivity|].
  destruct (utf8_step st x) as [out st']. cbn [fst snd].
  now rewrite IH, app_assoc.
Qed.

Lemma utf8_run_complete (st : utf8_state) (a : list N) :
  u_needed (utf8_state_after st a) = 0%nat ->
  utf8_run st a = utf8_emitted st a.
Proof.
  intros H. rewrite <- (app_nil_r a) at 1. rewrite utf8_run_app.
  simpl. rewrite H. apply app_nil_r.
Qed.

Lemma utf8_step_state (st : utf8_state) (b : N) :
  u_needed (snd (utf8_step st b)) = 0%nat -> snd (utf8_step st b) = utf8_init.
Proof.
  unfold utf8_step, utf8_lead.
  destruct (u_needed st) as [|[|n]];
    repeat match goal with
           | |- context [if ?c then _ else _] => destruct c
           end; cbn; try reflexivity; discriminate.
Qed.

Lemma utf8_state_after_last (a : list N) (x : N) :
  forall st,
    u_needed (utf8_state_after st (a ++ [x])) = 0%nat ->
    utf8_state_after st (a ++ [x]) = utf8_init.
Proof.
  induction a as [|y a IH]; intros st; simpl.
  - apply utf8_step_state.
  - apply IH.
Qed.

Lemma utf8_state_after_init (a : list N) :
  u_needed (utf8_state_after utf8_init a) = 0%nat ->
  utf8_state_after utf8_init a = utf8_init.
Proof.
  destruct a as [|x a _] using rev_ind; [reflexivity|].
  apply utf8_state_after_last.
Qed.

(** A chunk that ends between two characters decodes on its own to the text
    it contributes to the whole. *)
Lemma complete_chunk_clean (c r : list byte) :
  complete_chunk c ->
  Buffer_toString (c ++ r) = Buffer_toString c ++ Buffer_toString r.
Proof.
  unfold complete_chunk, Buffer_toString. intros H.
  rewrite map_app, utf8_run_app, (utf8_run_complete _ _ H).
  rewrite (utf8_state_after_init _ H).
  apply flat_map_app.
Qed.

(** *** The loop and the buffer *)

Lemma indexOf_bound (s : jsstring) (c : N) :
  indexOf s c <> -1 -> 0 <= indexOf s c < Z.of_nat (List.length s).
Proof.
  induction s as [|x s IH]; simpl; [congruence|].
  destruct (N.eqb x c); [lia|].
  destruct (indexOf s c =? -1) eqn:E; [congruence|].
  apply Z.eqb_neq in E. specialize (IH E). lia.
Qed.

Lemma indexOf_app_found (s t : jsstring) (c : N) :
  indexOf s c <> -1 -> indexOf (s ++ t) c = indexOf s c.
Proof.
  induction s as [|x s IH]; simpl; [congruence|].
  destruct (N.eqb x c); [reflexivity|].
  destruct (indexOf s c =? -1) eqn:E; [congruence|].
  apply Z.eqb_neq in E. rewrite (IH E).
  apply Z.eqb_neq in E. now rewrite E.
Qed.

Lemma slice_app (s t : jsstring) (i : Z) :
  0 <= i < Z.of_nat (List.length s) ->
  slice (s ++ t) 0 i = slice s 0 i
  /\ slice_from (s ++ t) (i + 1) = slice_from s (i + 1) ++ t
  /\ (List.length (slice_from s (i + 1)) < List.length s)%nat.
Proof.
  intros H. unfold slice, slice_from. change (Z.to_nat 0) with 0%nat.
  simpl skipn. rewrite Nat.sub_0_r. split; [|split].
  - rewrite firstn_app.
    replace (Z.to_nat i - List.length s)%nat with 0%nat by lia.
    simpl. apply app_nil_r.
  - rewrite skipn_app.
    replace (Z.to_nat (i + 1) - List.length s)%nat with 0%nat by lia.
    reflexivity.
  - rewrite length_skipn. lia.
Qed.

Section LoopFacts.

Variable on_message : jsstring -> stream_state -> completion.

(** Handling a message neither reads nor writes the buffer. *)
Hypothesis on_message_frame :
  forall message b st,
    on_message message (with_buffer b st)
    = lift (with_buffer b) (on_message message st).

(** Handling a message reports nothing itself. *)
Hypothesis on_message_console :
  forall message st,
    console (state_of (on_message message st)) = console st.

Lemma on_message_buffer (message : jsstring) (st st' : stream_state) :
  on_message message st = Normal st' -> buffer st' = buffer st.
Proof.
  intros H.
  assert (E : with_buffer (buffer st) st = st) by now destruct st.
  rewrite <- E, on_message_frame in H.
  destruct (on_message message st); [|discriminate].
  now injection H as <-.
Qed.

(** Fuel above the buffer's length is never used up. *)
Lemma loop_fuel (f1 : nat) :
  forall (f2 : nat) (st : stream_state),
    (List.length (buffer st) < f1)%nat ->
    (List.length (buffer st) < f2)%nat ->
    loop on_message f1 st = loop on_message f2 st.
Proof.
  induction f1 as [|f1 IH]; intros f2 st H1 H2; [lia|].
  destruct f2 as [|f2]; [lia|]. cbn [loop].
  destruct (indexOf (buffer st) newline =? -1) eqn:E; [reflexivity|].
  apply Z.eqb_neq in E.
  destruct (slice_app (buffer st) [] _ (indexOf_bound _ _ E)) as (_ & _ & L).
  destruct (on_message _ _) as [st2|st2] eqn:M; [|reflexivity].
  apply on_message_buffer in M. cbn [with_buffer buffer] in M.
  apply IH; rewrite M; lia.
Qed.

(** A loop that ends normally leaves no complete line in the buffer. *)
Lemma loop_settles (fuel : nat) :
  forall st st',
    (List.length (buffer st) < fuel)%nat ->
    loop on_message fuel st = Normal st' ->
    indexOf (buffer st') newline = -1.
Proof.
  induction fuel as [|f IH]; intros st st' H; [lia|]. cbn [loop].
  destruct (indexOf (buffer st) newline =? -1) eqn:E.
  - intros [= <-]. now apply Z.eqb_eq.
  - apply Z.eqb_neq in E.
    destruct (slice_app (buffer st) [] _ (indexOf_bound _ _ E))
      as (_ & _ & L).
    destruct (on_message _ _) as [st2|st2] eqn:M; [|discriminate].
    apply on_message_buffer in M. cbn [with_buffer buffer] in M.
    apply IH. rewrite M. lia.
Qed.

(** Text that arrives after a loop has ended normally is handled as if it
    had been in the buffer from the start. *)
Lemma loop_app (fuel : nat) :
  forall (st st' : stream_state) (t : jsstring) (f1 f2 : nat),
    (List.length (buffer st) < fuel)%nat ->
    loop on_message fuel st = Normal st' ->
    (List.length (buffer st ++ t) < f1)%nat ->
    (List.length (buffer st' ++ t) < f2)%nat ->
    loop on_message f1 (with_buffer (buffer st ++ t) st)
    = loop on_message f2 (with_buffer (buffer st' ++ t) st').
Proof.
  induction fuel as [|f IH]; intros st st' t f1 f2 H; [lia|]. cbn [loop].
  destruct (indexOf (buffer st) newline =? -1) eqn:E.
  - intros [= <-] H1 H2. now apply loop_fuel.
  - apply Z.eqb_neq in E. pose proof (indexOf_bound _ _ E) as B.
    destruct (slice_app (buffer st) t _ B) as (S1 & S2 & L).
    destruct (on_message _ _) as [st2|st2] eqn:M; [|discriminate].
    intros R H1 H2.
    destruct f1 as [|f1]; [lia|]. cbn [loop with_buffer buffer].
    rewrite (indexOf_app_found _ t _ E).
    apply Z.eqb_neq in E. rewrite E, S1, S2.
    change (with_buffer (slice_from (buffer st) (indexOf (buffer st) newline + 1) ++ t)
              (with_buffer (buffer st ++ t) st))
      with (with_buffer (slice_from (buffer st) (indexOf (buffer st) newline + 1) ++ t) st).
    rewrite on_message_frame. rewrite on_message_frame in M.
    destruct (on_message _ st) as [s0|s0]; [|discriminate].
    cbn [lift] in *. injection M as <-.
    cbn [with_buffer buffer] in *.
    rewrite length_app in H1.
    specialize (IH (with_buffer (slice_from (buffer st)
                                   (indexOf (buffer st) newline + 1)) s0)
                   st' t f1 f2).
    cbn [with_buffer buffer] in IH.
    rewrite <- IH; [reflexivity | lia | exact R | rewrite length_app; lia
                   | exact H2].
Qed.

Lemma loop_console (fuel : nat) :
  forall st, console (state_of (loop on_message fuel st)) = console st.
Proof.
  induction fuel as [|f IH]; intros st; [reflexivity|]. cbn [loop].
  destruct (indexOf (buffer st) newline =? -1); [reflexivity|].
  pose proof (on_message_console
                (slice (buffer st) 0 (indexOf (buffer st) newline))
                (with_buffer (slice_from (buffer st)
                                (indexOf (buffer st) newline + 1)) st)) as C.
  destruct (on_message _ _) as [st2|st2]; cbn [state_of] in *.
  - now rewrite IH.
  - exact C.
Qed.

(** A chunk either is handled to the end, or is reported. *)
Lemma feed_cases (t : jsstring) (st : stream_state) :
  (loop on_message (S (List.length (buffer st ++ t)))
        (with_buffer (buffer st ++ t) st) = Normal (feed on_message t st)
   /\ console (feed on_message t st) = console st)
  \/ console (feed on_message t st) = console st ++ [t].
Proof.
  unfold feed. cbn [with_buffer buffer].
  pose proof (loop_console (S (List.length (buffer st ++ t)))
                (with_buffer (buffer st ++ t) st)) as C.
  destruct (loop on_message _ _) as [s|s]; cbn [state_of] in C.
  - left. split; [reflexivity | exact C].
  - right. cbn. now rewrite C.
Qed.

Lemma feed_quiet (t : jsstring) (st : stream_state) :
  console (feed on_message t st) = console st ->
  loop on_message (S (List.length (buffer st ++ t)))
       (with_buffer (buffer st ++ t) st) = Normal (feed on_message t st).
Proof.
  intros H. destruct (feed_cases t st) as [[L _] | C]; [exact L|].
  rewrite H in C. apply (f_equal (@List.length jsstring)) in C.
  rewrite length_app in C. cbn in C. lia.
Qed.

Lemma feed_console_length (t : jsstring) (st : stream_state) :
  (List.length (console st)
   <= List.length (console (feed on_message t st)))%nat.
Proof.
  destruct (feed_cases t st) as [[_ C] | C]; rewrite C;
    [|rewrite length_app]; lia.
Qed.

Lemma feeds_console_length (ts : list jsstring) :
  forall st,
    (List.length (console st)
     <= List.length
          (console (fold_left (fun s t => feed on_message t s) ts st)))%nat.
Proof.
  induction ts as [|t ts IH]; intros st; simpl; [lia|].
  pose proof (feed_console_length t st). specialize (IH (feed on_message t st)).
  lia.
Qed.

(** Two chunks of text that raise nothing are handled as their
    concatenation. *)
Lemma feed_app (t1 t2 : jsstring) (st : stream_state) :
  console (feed on_message t1 st) = console st ->
  console (feed on_message t2 (feed on_message t1 st)) = console st ->
  feed on_message t2 (feed on_message t1 st)
  = feed on_message (t1 ++ t2) st.
Proof.
  intros Q1 Q2. pose proof (feed_quiet t1 st Q1) as L1.
  rewrite <- Q1 in Q2. pose proof (feed_quiet t2 _ Q2) as L2.
  set (s1 := feed on_message t1 st) in *.
  pose proof (loop_app _ (with_buffer (buffer st ++ t1) st) s1 t2
                (S (List.length (buffer st ++ t1 ++ t2)))
                (S (List.length (buffer s1 ++ t2)))
                (Nat.lt_succ_diag_r _) L1) as A.
  cbn [with_buffer buffer] in A. rewrite <- app_assoc in A.
  specialize (A (Nat.lt_succ_diag_r _) (Nat.lt_succ_diag_r _)).
  change (with_buffer (buffer st ++ t1 ++ t2)
            (with_buffer (buffer st ++ t1) st))
    with (with_buffer (buffer st ++ t1 ++ t2) st) in A.
  rewrite L2 in A.
  unfold feed at 2. cbn [with_buffer buffer]. now rewrite A.
Qed.

Lemma feed_nothing (st : stream_state) :
  indexOf (buffer st) newline = -1 -> feed on_message [] st = st.
Proof.
  intros H. unfold feed. rewrite app_nil_r. cbn [loop with_buffer buffer].
  apply Z.eqb_eq in H. rewrite H. now destruct st.
Qed.

(** Any number of chunks of text that raise nothing are handled as their
    concatenation. *)
Lemma feeds_concat (ts : list jsstring) :
  forall st,
    indexOf (buffer st) newline = -1 ->
    console (fold_left (fun s t => feed on_message t s) ts st) = console st ->
    fold_left (fun s t => feed on_message t s) ts st
    = feed on_message (List.concat ts) st.
Proof.
  induction ts as [|t ts IH]; intros st B Q; simpl in *.
  - symmetry. now apply feed_nothing.
  - assert (Q1 : console (feed on_message t st) = console st).
    { destruct (feed_cases t st) as [[_ C] | C]; [exact C|].
      pose proof (feeds_console_length ts (feed on_message t st)) as L.
      rewrite Q, C, length_app in L. cbn in L. lia. }
    assert (B1 : indexOf (buffer (feed on_message t st)) newline = -1).
    { eapply loop_settles; [|apply (feed_quiet t st Q1)].
      cbn [with_buffer buffer]. lia. }
    assert (Q2 : console (fold_left (fun s t => feed on_message t s) ts
                            (feed on_message t st))
                 = console (feed on_message t st)) by now rewrite Q1.
    pose proof (IH _ B1 Q2) as E. rewrite E in *.
    apply feed_app; [exact Q1 | exact Q].
Qed.

End LoopFacts.

(** *** Both surfaces *)

Lemma openai_on_message_frame (model : jsval) (message b : jsstring)
    (st : stream_state) :
  OpenAI.on_message model message (with_buffer b st)
  = lift (with_buffer b) (OpenAI.on_message model message st).
Proof.
  unfold OpenAI.on_message.
  destruct (is_empty (trim message)); [reflexivity|].
  destruct (str_eqb _ _); [reflexivity|].
  destruct (JSON_parse _) as [v|]; [|reflexivity].
  destruct (get v _) as [idv|]; [|reflexivity].
  cbn [env with_buffer].
  destruct (truthy idv); reflexivity.
Qed.

Lemma openai_on_message_console (model : jsval) (message : jsstring)
    (st : stream_state) :
  console (state_of (OpenAI.on_message model message st)) = console st.
Proof.
  unfold OpenAI.on_message.
  destruct (is_empty (trim message)); [reflexivity|].
  destruct (str_eqb _ _); [reflexivity|].
  destruct (JSON_parse _) as [v|]; [|reflexivity].
  destruct (get v _) as [idv|]; [|reflexivity].
  destruct (truthy idv); reflexivity.
Qed.

Lemma ollama_on_message_frame (chosen : jsval) (message b : jsstring)
    (st : stream_state) :
  Ollama.on_message chosen message (with_buffer b st)
  = lift (with_buffer b) (Ollama.on_message chosen message st).
Proof.
  unfold Ollama.on_message.
  destruct (is_empty (trim message)); [reflexivity|].
  destruct (str_eqb _ _); [reflexivity|].
  destruct (JSON_parse _) as [v|]; [|reflexivity].
  cbn [env with_buffer new_Date with_env res].
  destruct (rbind _ _); [|reflexivity].
  destruct (Ollama.res_header _ _ _); reflexivity.
Qed.

Lemma ollama_on_message_console (chosen : jsval) (message : jsstring)
    (st : stream_state) :
  console (state_of (Ollama.on_message chosen message st)) = console st.
Proof.
  unfold Ollama.on_message.
  destruct (is_empty (trim message)); [reflexivity|].
  destruct (str_eqb _ _); [reflexivity|].
  destruct (JSON_parse _) as [v|]; [|reflexivity].
  cbn [env with_buffer new_Date with_env res].
  destruct (rbind _ _); [|reflexivity].
  destruct (Ollama.res_header _ _ _); reflexivity.
Qed.

Lemma openai_drain_loop (model : jsval) (fuel : nat) :
  forall st, OpenAI.drain fuel model st
             = loop (OpenAI.on_message model) fuel st.
Proof.
  induction fuel as [|f IH]; intros st; [reflexivity|].
  cbn [OpenAI.drain loop].
  destruct (_ =? -1); [reflexivity|].
  destruct (OpenAI.on_message _ _ _); [apply IH | reflexivity].
Qed.

Lemma ollama_drain_loop (chosen : jsval) (fuel : nat) :
  forall st, Ollama.drain fuel chosen st
             = loop (Ollama.on_message chosen) fuel st.
Proof.
  induction fuel as [|f IH]; intros st; [reflexivity|].
  cbn [Ollama.drain loop].
  destruct (_ =? -1); [reflexivity|].
  destruct (Ollama.on_message _ _ _); [apply IH | reflexivity].
Qed.

Lemma openai_on_data_feed (model : jsval) (chunk : list byte)
    (st : stream_state) :
  OpenAI.on_data model chunk st
  = feed (OpenAI.on_message model) (Buffer_toString chunk) st.
Proof. unfold OpenAI.on_data, feed. now rewrite openai_drain_loop. Qed.

Lemma ollama_on_data_feed (chosen : jsval) (chunk : list byte)
    (st : stream_state) :
  Ollama.on_data chosen chunk st
  = feed (Ollama.on_message chosen) (Buffer_toString chunk) st.
Proof. unfold Ollama.on_data, feed. now rewrite ollama_drain_loop. Qed.

Lemma clean_split_text (chunks : list (list byte)) :
  clean_split chunks ->
  Buffer_toString (List.concat chunks)
  = List.concat (map Buffer_toString chunks).
Proof.
  induction chunks as [|c r IH]; simpl; [reflexivity|].
  intros [E C]. now rewrite E, IH.
Qed.

Lemma openai_run_feeds (model : jsval) (chunks : list (list byte)) :
  forall st,
    OpenAI.run_stream model (map Data chunks) st
    = fold_left (fun s t => feed (OpenAI.on_message model) t s)
                (map Buffer_toString chunks) st.
Proof.
  unfold OpenAI.run_stream.
  induction chunks as [|c r IH]; intros st; simpl; [reflexivity|].
  now rewrite IH, openai_on_data_feed.
Qed.

Lemma ollama_run_feeds (chosen : jsval) (chunks : list (list byte)) :
  forall st,
    Ollama.run_stream chosen (map Data chunks) st
    = fold_left (fun s t => feed (Ollama.on_message chosen) t s)
                (map Buffer_toString chunks) st.
Proof.
  unfold Ollama.run_stream.
  induction chunks as [|c r IH]; intros st; simpl; [reflexivity|].
  now rewrite IH, ollama_on_data_feed.
Qed.

(** What does hold of the translator under chunking: when every chunk
    boundary falls between two characters and no chunk is reported (no line
    raises an exception), the chunks leave the stream in the state the whole
    byte stream delivered as one chunk leaves it, with the same frames
    written, on either surface. *)
Theorem chunks_between_characters_same_frames (model : jsval)
    (chunks : list (list byte)) (st : stream_state) :
  indexOf (buffer st) newline = -1 ->
  clean_split chunks ->
  (console (OpenAI.run_stream model (map Data chunks) st) = console st ->
   OpenAI.run_stream model (map Data chunks) st
   = OpenAI.on_data model (List.concat chunks) st)
  /\ (console (Ollama.run_stream model (map Data chunks) st) = console st ->
      Ollama.run_stream model (map Data chunks) st
      = Ollama.on_data model (List.concat chunks) st).
Proof.
  intros B C. split; intros Q.
  - rewrite openai_run_feeds in *.
    rewrite openai_on_data_feed, (clean_split_text _ C).
    apply feeds_concat;
      [apply openai_on_message_frame | apply openai_on_message_console
       | exact B | exact Q].
  - rewrite ollama_run_feeds in *.
    rewrite ollama_on_data_feed, (clean_split_text _ C).
    apply feeds_concat;
      [apply ollama_on_message_frame | apply ollama_on_message_console
       | exact B | exact Q].
Qed.

Lemma complete_chunks_clean (chunks : list (list byte)) :
  Forall complete_chunk chunks -> clean_split chunks.
Proof.
  induction 1 as [|c r Hc Hr IH]; simpl; [exact I|].
  split; [now apply complete_chunk_clean | exact IH].
Qed.

(** A delta line cut before its terminator gives its one frame when the
    terminator arrives. *)
Example terminator_in_later_chunk :
  contents_written
    (OpenAI.run_stream (JStr (lit "m1"))
       [Data (ascii_bytes (removelast delta_hi));
        Data (ascii_bytes [newline]); End] sample_stream)
  = [Some (JStr (lit "hi")); Some (JStr []); None]
  /\ contents_written
       (OpenAI.on_data (JStr (lit "m1"))
          (ascii_bytes (removelast delta_hi)) sample_stream)
     = [].
Proof. split; vm_compute; reflexivity. Qed.

(** On the local-runner surface the header that [chat] sets before each
    frame can be set no more once the first frame is out: of two delta lines
    only the first gives a frame, and the chunk is reported. *)
Example local_runner_second_delta_raises :
  let st := Ollama.on_data (JStr (lit "m1"))
              (ascii_bytes (delta_hi ++ delta_hi)) sample_stream in
  contents_written st = [Some (JStr (lit "hi"))]
  /\ console st = [delta_hi ++ delta_hi].
Proof. split; vm_compute; reflexivity. Qed.

Example chunks_between_characters_example :
  OpenAI.run_stream (JStr (lit "m1")) [Data delta_hi_head; Data delta_hi_tail]
                    sample_stream
  = OpenAI.on_data (JStr (lit "m1")) (delta_hi_head ++ delta_hi_tail)
                   sample_stream.
Proof.
  pose proof (proj1 (chunks_between_characters_same_frames (JStr (lit "m1"))
                       [delta_hi_head; delta_hi_tail] sample_stream eq_refl
                       (conj eq_refl (conj eq_refl I))) eq_refl) as H.
  cbn [map List.concat] in H. rewrite app_nil_r in H. exact H.
Qed.

(* ===================================================================== *)
(** * Further properties *)
(* ===================================================================== *)

(** ** The data callbacks *)

Lemma indexOf_app_none (a b : jsstring) (c : N) :
  indexOf a c = -1 -> indexOf b c = -1 -> indexOf (a ++ b) c = -1.
Proof.
  intros Ha Hb. induction a as [|x a IH]; simpl in *; [exact Hb|].
  destruct (N.eqb x c); [discriminate|].
  pose proof (indexOf_lower a c).
  destruct (indexOf a c =? -1) eqn:E; [|lia].
  apply Z.eqb_eq in E. rewrite (IH E). reflexivity.
Qed.

(** X1. A chunk that brings no line terminator, on a buffer that holds none,
    is only added to the buffer: nothing is written and nothing reported, on
    either surface. *)
Theorem partial_line_waits (model : jsval) (chunk : list byte)
    (st : stream_state) :
  indexOf (buffer st) newline = -1 ->
  indexOf (Buffer_toString chunk) newline = -1 ->
  OpenAI.on_data model chunk st
  = with_buffer (buffer st ++ Buffer_toString chunk) st
  /\ Ollama.on_data model chunk st
     = with_buffer (buffer st ++ Buffer_toString chunk) st.
Proof.
  intros Hb Hc. pose proof (indexOf_app_none _ _ _ Hb Hc) as H.
  unfold OpenAI.on_data, Ollama.on_data.
  cbn [OpenAI.drain Ollama.drain with_buffer buffer].
  rewrite H. split; reflexivity.
Qed.

Lemma partial_line_waits_witness :
  OpenAI.on_data (JStr (lit "m1")) delta_hi_open sample_stream
  = with_buffer (buffer sample_stream ++ Buffer_toString delta_hi_open)
                sample_stream.
Proof.
  exact (proj1 (partial_line_waits (JStr (lit "m1")) delta_hi_open
                  sample_stream eq_refl eq_refl)).
Defined.

(** X2. A complete line of white space only, the empty line that separates
    server-sent events included, is taken off the buffer without output on
    either surface, and the loop goes on with what follows it. *)
Theorem blank_line_skipped (model : jsval) (message rest : jsstring)
    (st : stream_state) (fuel : nat) :
  forallb is_js_space message = true ->
  indexOf message newline = -1 ->
  OpenAI.drain (S fuel) model (with_buffer (message ++ newline :: rest) st)
  = OpenAI.drain fuel model (with_buffer rest st)
  /\ Ollama.drain (S fuel) model (with_buffer (message ++ newline :: rest) st)
     = Ollama.drain fuel model (with_buffer rest st).
Proof.
  intros W NL. apply trim_nil in W.
  destruct (cut_line message rest NL) as (I & Sl & Sf).
  cbn [OpenAI.drain Ollama.drain with_buffer buffer].
  rewrite I, Sl, Sf. unfold OpenAI.on_message, Ollama.on_message.
  rewrite W. split; reflexivity.
Qed.

Lemma blank_line_skipped_witness :
  OpenAI.drain 3 (JStr (lit "m1"))
    (with_buffer ([] ++ newline :: delta_hi) sample_stream)
  = OpenAI.drain 2 (JStr (lit "m1")) (with_buffer delta_hi sample_stream).
Proof.
  exact (proj1 (blank_line_skipped (JStr (lit "m1")) [] delta_hi
                  sample_stream 2 eq_refl eq_refl)).
Defined.

(** X4. When the first complete line of what a chunk brings is not JSON
    (and is neither blank nor the sentinel), the callback stops at it: the
    line is dropped, nothing is written, the chunk is reported, and what
    followed the line stays in the buffer for the next callback.  Both
    surfaces. *)
Theorem raising_line_dropped (model : jsval) (chunk : list byte)
    (st : stream_state) (line rest : jsstring) :
  buffer st ++ Buffer_toString chunk = line ++ newline :: rest ->
  indexOf line newline = -1 ->
  is_empty (trim line) = false ->
  trim (strip_data_prefix line) <> lit "[DONE]" ->
  JSON_parse (strip_data_prefix line) = None ->
  OpenAI.on_data model chunk st
  = report (Buffer_toString chunk) (with_buffer rest st)
  /\ Ollama.on_data model chunk st
     = report (Buffer_toString chunk) (with_buffer rest st).
Proof.
  intros E NL T D P.
  assert (D' : str_eqb (trim (strip_data_prefix line)) (lit "[DONE]") = false).
  { destruct (str_eqb _ _) eqn:Q; [|reflexivity].
    apply str_eqb_eq in Q. contradiction. }
  destruct (cut_line line rest NL) as (I & Sl & Sf).
  unfold OpenAI.on_data, Ollama.on_data.
  cbn [OpenAI.drain Ollama.drain with_buffer buffer].
  rewrite E, I, Sl, Sf. unfold OpenAI.on_message, Ollama.on_message.
  rewrite T, D', P. split; reflexivity.
Qed.

Lemma raising_line_dropped_witness :
  OpenAI.on_data (JStr (lit "m1")) (ascii_bytes (keep_alive ++ delta_hi))
                 sample_stream
  = report (Buffer_toString (ascii_bytes (keep_alive ++ delta_hi)))
           (with_buffer delta_hi sample_stream).
Proof.
  refine (proj1 (raising_line_dropped (JStr (lit "m1"))
                   (ascii_bytes (keep_alive ++ delta_hi)) sample_stream
                   (lit ": keep-alive") delta_hi eq_refl eq_refl eq_refl
                   _ eq_refl)).
  discriminate.
Defined.

(** ** What every callback keeps *)

Section LoopInvariant.

Variable on_message : jsstring -> stream_state -> completion.
Variable P : stream_state -> Prop.

Hypothesis P_buffer : forall b st, P st -> P (with_buffer b st).
Hypothesis P_report : forall t st, P st -> P (report t st).
Hypothesis P_message :
  forall message st, P st -> P (state_of (on_message message st)).

Lemma loop_invariant (fuel : nat) :
  forall st, P st -> P (state_of (loop on_message fuel st)).
Proof.
  induction fuel as [|f IH]; intros st H; [exact H|]. cbn [loop].
  destruct (indexOf (buffer st) newline =? -1); [exact H|].
  pose proof (P_message (slice (buffer st) 0 (indexOf (buffer st) newline))
                _ (P_buffer (slice_from (buffer st)
                               (indexOf (buffer st) newline + 1)) _ H)) as M.
  destruct (on_message _ _) as [st2|st2]; cbn [state_of] in *.
  - apply IH, M.
  - exact M.
Qed.

Lemma feed_invariant (t : jsstring) (st : stream_state) :
  P st -> P (feed on_message t st).
Proof.
  intros H. unfold feed.
  pose proof (loop_invariant
                (S (List.length (buffer (with_buffer (buffer st ++ t) st))))
                _ (P_buffer (buffer st ++ t) _ H)) as L.
  destruct (loop _ _ _) as [st2|st2]; cbn [state_of] in L.
  - exact L.
  - apply P_report, L.
Qed.

End LoopInvariant.

Lemma continues_refl (st : stream_state) : continues st st.
Proof. split; [exists []; now rewrite app_nil_r | reflexivity]. Qed.

Lemma continues_trans (a b c : stream_state) :
  continues a b -> continues b c -> continues a c.
Proof.
  intros ((x & X) & S1) ((y & Y) & S2). split.
  - exists (x ++ y). now rewrite Y, X, app_assoc.
  - now rewrite S2.
Qed.

Lemma continues_write (x : write) (w : world) (st : stream_state) :
  continues st (stream_write x (with_env w st)).
Proof. split; [now exists [x] | reflexivity]. Qed.

Lemma openai_on_message_continues (model : jsval) (message : jsstring)
    (st : stream_state) :
  continues st (state_of (OpenAI.on_message model message st)).
Proof.
  unfold OpenAI.on_message.
  destruct (is_empty _); [apply continues_refl|].
  destruct (str_eqb _ _).
  { split; [now exists [WRaw done_line] | reflexivity]. }
  destruct (JSON_parse _) as [v|]; [|apply continues_refl].
  destruct (get v _) as [idv|]; [|apply continues_refl].
  destruct (truthy idv); cbv beta iota zeta;
    repeat match goal with
           | |- context [Date_now ?w] => destruct (Date_now w)
           | |- context [Math_random ?w] => destruct (Math_random w)
           end; apply continues_write.
Qed.

Lemma ollama_on_message_continues (chosen : jsval) (message : jsstring)
    (st : stream_state) :
  continues st (state_of (Ollama.on_message chosen message st)).
Proof.
  unfold Ollama.on_message.
  destruct (is_empty _); [apply continues_refl|].
  destruct (str_eqb _ _); [apply continues_refl|].
  destruct (JSON_parse _) as [v|]; [|apply continues_refl].
  destruct (new_Date (env st)) as [d w1]. cbv beta iota zeta.
  assert (E : continues st (with_env w1 st)).
  { split; [exists []; cbn; now rewrite app_nil_r | reflexivity]. }
  destruct (rbind _ _) as [content|]; [|exact E].
  unfold Ollama.res_header, res_setHeader. cbn [with_env res].
  destruct (headersSent (res st)); [exact E|].
  split; [now eexists | reflexivity].
Qed.

Lemma openai_on_end_continues (model : jsval) (st : stream_state) :
  continues st (OpenAI.on_end model st).
Proof.
  unfold OpenAI.on_end.
  destruct (Date_now (env st)) as [n w1], (Math_random w1) as [q w2],
           (Date_now w2) as [n' w3].
  split; [|reflexivity]. cbn. rewrite <- app_assoc. now eexists.
Qed.

Lemma ollama_on_end_continues (chosen : jsval) (st : stream_state) :
  continues st (Ollama.on_end chosen st).
Proof.
  unfold Ollama.on_end.
  destruct (new_Date (env st)) as [d w0].
  repeat match goal with
         | |- context [random_below ?n ?w] => destruct (random_below n w)
         end.
  split; [|reflexivity]. cbn. now eexists.
Qed.

(** X3. The callbacks of a streamed response only ever add to it: whatever
    events arrive, in whatever chunks, what was written before stays in
    front of what is written after, and the status is not touched.  Both
    surfaces. *)
Theorem stream_only_appends (model : jsval) (evs : list stream_event)
    (st : stream_state) :
  continues st (OpenAI.run_stream model evs st)
  /\ continues st (Ollama.run_stream model evs st).
Proof.
  split.
  - unfold OpenAI.run_stream.
    assert (G : forall s0 s, continues s0 s ->
                continues s0 (fold_left (fun s ev => OpenAI.deliver model ev s)
                                        evs s)).
    { induction evs as [|ev evs IH]; intros s0 s H; [exact H|].
      cbn [fold_left]. apply IH. destruct ev as [chunk|]; cbn [OpenAI.deliver].
      - rewrite openai_on_data_feed.
        apply (feed_invariant (OpenAI.on_message model) (continues s0));
          [intros b x [B S]; split; assumption
          |intros t x [B S]; split; assumption
          |intros m x Hx; eapply continues_trans;
             [exact Hx | apply openai_on_message_continues]
          |exact H].
      - eapply continues_trans; [exact H | apply openai_on_end_continues]. }
    apply G, continues_refl.
  - unfold Ollama.run_stream.
    assert (G : forall s0 s, continues s0 s ->
                continues s0 (fold_left (fun s ev => Ollama.deliver model ev s)
                                        evs s)).
    { induction evs as [|ev evs IH]; intros s0 s H; [exact H|].
      cbn [fold_left]. apply IH. destruct ev as [chunk|]; cbn [Ollama.deliver].
      - rewrite ollama_on_data_feed.
        apply (feed_invariant (Ollama.on_message model) (continues s0));
          [intros b x [B S]; split; assumption
          |intros t x [B S]; split; assumption
          |intros m x Hx; eapply continues_trans;
             [exact Hx | apply ollama_on_message_continues]
          |exact H].
      - eapply continues_trans; [exact H | apply ollama_on_end_continues]. }
    apply G, continues_refl.
Qed.

(** X5. A data callback that reports nothing has handled every complete
    line: the buffer it leaves holds no line terminator.  Both surfaces. *)
Theorem quiet_callback_settles (model : jsval) (chunk : list byte)
    (st : stream_state) :
  (console (OpenAI.on_data model chunk st) = console st ->
   indexOf (buffer (OpenAI.on_data model chunk st)) newline = -1)
  /\ (console (Ollama.on_data model chunk st) = console st ->
      indexOf (buffer (Ollama.on_data model chunk st)) newline = -1).
Proof.
  split; intros Q.
  - rewrite openai_on_data_feed in *.
    apply (feed_quiet _ (openai_on_message_console model)) in Q.
    eapply (loop_settles _ (openai_on_message_frame model)); [|exact Q].
    cbn [with_buffer buffer]. lia.
  - rewrite ollama_on_data_feed in *.
    apply (feed_quiet _ (ollama_on_message_console model)) in Q.
    eapply (loop_settles _ (ollama_on_message_frame model)); [|exact Q].
    cbn [with_buffer buffer]. lia.
Qed.

Lemma quiet_callback_settles_witness :
  indexOf (buffer (OpenAI.on_data (JStr (lit "m1"))
                     (ascii_bytes (delta_hi ++ lit "data: {"))
                     sample_stream)) newline = -1.
Proof.
  exact (proj1 (quiet_callback_settles (JStr (lit "m1"))
                  (ascii_bytes (delta_hi ++ lit "data: {")) sample_stream)
               eq_refl).
Defined.

Lemma ollama_on_message_one_delta (chosen : jsval) (message : jsstring)
    (st : stream_state) :
  one_delta st -> one_delta (state_of (Ollama.on_message chosen message st)).
Proof.
  intros H. unfold Ollama.on_message.
  destruct (is_empty _); [exact H|].
  destruct (str_eqb _ _); [exact H|].
  destruct (JSON_parse _) as [v|]; [|exact H].
  destruct (new_Date (env st)) as [d w1]. cbv beta iota zeta.
  destruct (rbind _ _) as [content|]; [|exact H].
  unfold Ollama.res_header, res_setHeader. cbn [with_env res].
  destruct (headersSent (res st)) eqn:S; [exact H|].
  destruct H as [[_ Z0]|[S' _]]; [|congruence].
  right. split; [reflexivity|]. cbn [state_of].
  unfold delta_frames in *.
  cbn [stream_write with_res with_env res res_write body].
  rewrite filter_app, length_app, Z0.
  cbn [filter is_delta ol_done negb List.length]. lia.
Qed.

Lemma ollama_on_end_one_delta (chosen : jsval) (st : stream_state) :
  one_delta st -> one_delta (Ollama.on_end chosen st).
Proof.
  intros H. unfold Ollama.on_end.
  destruct (new_Date (env st)) as [d w0].
  repeat match goal with
         | |- context [random_below ?n ?w] => destruct (random_below n w)
         end.
  right. split; [reflexivity|].
  unfold delta_frames in *.
  cbn [stream_write with_res with_env res res_write res_end body].
  rewrite filter_app, length_app.
  cbn [filter is_delta ol_done negb List.length].
  destruct H as [[_ Z0]|[_ L]]; unfold delta_frames in *; lia.
Qed.

(** X6. A streamed response of the local-runner surface carries one delta
    frame at most.  The frame's write sends the header block, and the next
    delta's [res.header] call is then refused before its own write, so from
    a response that has sent nothing any sequence of events leaves no more
    than one frame that is not final. *)
Theorem local_stream_one_delta_at_most (chosen : jsval)
    (evs : list stream_event) (st : stream_state) :
  one_delta st ->
  (delta_frames (Ollama.run_stream chosen evs st) <= 1)%nat.
Proof.
  intros H.
  assert (G : one_delta (Ollama.run_stream chosen evs st)).
  { unfold Ollama.run_stream. revert st H.
    induction evs as [|ev evs IH]; intros st H; [exact H|].
    cbn [fold_left]. apply IH. destruct ev as [chunk|]; cbn [Ollama.deliver].
    - rewrite ollama_on_data_feed.
      apply (feed_invariant (Ollama.on_message chosen) one_delta);
        [intros b x Hx; exact Hx | intros t x Hx; exact Hx
        |intros m x Hx; now apply ollama_on_message_one_delta | exact H].
    - now apply ollama_on_end_one_delta. }
  destruct G as [[_ Z0]|[_ L]]; lia.
Qed.

Lemma local_stream_one_delta_at_most_witness :
  (delta_frames
     (Ollama.run_stream (JStr (lit "m1"))
        [Data (ascii_bytes (delta_hi ++ delta_hi)); Data (ascii_bytes delta_hi);
         End] sample_stream) <= 1)%nat.
Proof.
  apply (local_stream_one_delta_at_most (JStr (lit "m1"))
           [Data (ascii_bytes (delta_hi ++ delta_hi));
            Data (ascii_bytes delta_hi); End] sample_stream).
  left. split; reflexivity.
Defined.

(** ** Objects *)

Lemma str_eqb_neq (a b : jsstring) : str_eqb a b = false <-> a <> b.
Proof.
  split.
  - intros H E. apply str_eqb_eq in E. congruence.
  - intros H. destruct (str_eqb a b) eqn:E; [|reflexivity].
    apply str_eqb_eq in E. contradiction.
Qed.

Lemma lookup_obj_set (k k' : jsstring) (v : jsval)
    (fs : list (jsstring * jsval)) :
  lookup k (obj_set k' v fs) = if str_eqb k k' then Some v else lookup k fs.
Proof.
  induction fs as [|[k0 v0] r IH]; cbn [obj_set lookup]; [reflexivity|].
  destruct (str_eqb k' k0) eqn:E0; cbn [lookup].
  - apply str_eqb_eq in E0. subst k0. now destruct (str_eqb k k').
  - rewrite IH. destruct (str_eqb k k0) eqn:E1; [|reflexivity].
    apply str_eqb_eq in E1. subst k0.
    destruct (str_eqb k k') eqn:E2; [|reflexivity].
    apply str_eqb_eq in E2. subst k'. now rewrite str_eqb_refl in E0.
Qed.

Lemma lookup_rest (ks : list jsstring) (k : jsstring)
    (fs : list (jsstring * jsval)) :
  lookup k (filter (fun kv => negb (mem_key (fst kv) ks)) fs)
  = if mem_key k ks then None else lookup k fs.
Proof.
  induction fs as [|[k0 v0] r IH]; cbn [filter lookup fst].
  - now destruct (mem_key k ks).
  - destruct (str_eqb k k0) eqn:E.
    + apply str_eqb_eq in E. subst k0.
      destruct (mem_key k ks) eqn:M; cbn [negb].
      * rewrite IH. now rewrite ?M.
      * cbn [lookup]. now rewrite str_eqb_refl.
    + destruct (mem_key k0 ks); cbn [negb]; [exact IH|].
      cbn [lookup]. now rewrite E.
Qed.

(** ** [chatCompletions], on every request *)

Lemma respond_handled (model chosen wants data : jsval) (tr : list event) :
  let h := match OpenAI.respond model chosen wants data fresh_res with
           | (r1, Ok s) => OpenAI.mk_handled r1 tr s
           | (r1, Throw) => OpenAI.fail_500 r1 tr
           end in
  answered h
  /\ (List.length (body (OpenAI.h_res h)) <= 1)%nat
  /\ OpenAI.h_trace h = tr.
Proof.
  unfold OpenAI.respond, answered.
  destruct (truthy wants); cbn.
  - split; [right; now eexists | split; [lia | reflexivity]].
  - destruct (set data _ chosen); cbn;
      (split; [now left | split; [lia | reflexivity]]).
Qed.

Lemma retry_loop_throw (f : nat) (cfg : config) (upstream : nat -> attempt)
    (model messages stream : jsval) (otherParams : list (jsstring * jsval))
    (retryCount : Z) (r : http_res) (tr : list event) :
  retryCount < OpenAI.maxRetries ->
  makeChatRequest cfg (chosenModel cfg model) messages (wantsStream cfg stream)
                  otherParams = Throw ->
  OpenAI.retry_loop (S f) cfg upstream model messages stream otherParams
                    retryCount r tr
  = OpenAI.fail_500 r tr.
Proof.
  intros L E. cbn [OpenAI.retry_loop].
  apply Z.ltb_lt in L. now rewrite L, E.
Qed.

Lemma fail_500_handled (tr : list event) :
  answered (OpenAI.fail_500 fresh_res tr)
  /\ (List.length (body (OpenAI.h_res (OpenAI.fail_500 fresh_res tr))) <= 1)%nat
  /\ OpenAI.h_trace (OpenAI.fail_500 fresh_res tr) = tr
  /\ escalates (OpenAI.fail_500 fresh_res tr).
Proof.
  split; [now left|]. split; [cbn; lia|]. split; [reflexivity|].
  now apply fail_500_escalates.
Qed.

(** X7. Whatever the request body and whatever the upstream does,
    [chatCompletions] deals with the request: it completes the response or
    attaches the stream callbacks, it sends one body at most, and towards
    the upstream it either does nothing (and then answers 500) or makes
    between one and three attempts at one and the same request, 5000 ms
    apart. *)
Theorem chatCompletions_always_answers (cfg : config)
    (upstream : nat -> attempt) (req_body : jsval) :
  let h := OpenAI.chatCompletions cfg upstream req_body in
  answered h
  /\ (List.length (body (OpenAI.h_res h)) <= 1)%nat
  /\ ((OpenAI.h_trace h = [] /\ escalates h)
      \/ exists call n,
           (1 <= n <= 3)%nat /\ OpenAI.h_trace h = retry_trace call n).
Proof.
  cbv zeta. unfold OpenAI.chatCompletions.
  pose proof (fail_500_handled []) as (F1 & F2 & F3 & F4).
  destruct (get req_body (lit "model")) as [model|]; [|now auto].
  destruct (get req_body (lit "messages")) as [messages|]; [|now auto].
  destruct (get req_body (lit "stream")) as [stream0|]; [|now auto].
  destruct (rest_without _ req_body) as [otherParams|]; [|now auto].
  set (stream := match stream0 with JUndefined => JBool false | v => v end).
  change (S (Z.to_nat OpenAI.maxRetries)) with 4%nat.
  destruct (makeChatRequest cfg (chosenModel cfg model) messages
              (wantsStream cfg stream) otherParams) as [call|] eqn:Hc.
  2:{ rewrite (retry_loop_throw 3 cfg upstream model messages stream
                 otherParams 0 fresh_res [] ltac:(reflexivity) Hc).
      now auto. }
  assert (R : forall data n,
             (1 <= n <= 3)%nat ->
             let h := match OpenAI.respond model (chosenModel cfg model)
                              (wantsStream cfg stream) data fresh_res with
                      | (r1, Ok s) => OpenAI.mk_handled r1 (retry_trace call n) s
                      | (r1, Throw) => OpenAI.fail_500 r1 (retry_trace call n)
                      end in
             answered h
             /\ (List.length (body (OpenAI.h_res h)) <= 1)%nat
             /\ ((OpenAI.h_trace h = [] /\ escalates h)
                 \/ exists call' n',
                      (1 <= n' <= 3)%nat
                      /\ OpenAI.h_trace h = retry_trace call' n')).
  { intros data n Hn.
    destruct (respond_handled model (chosenModel cfg model)
                (wantsStream cfg stream) data (retry_trace call n))
      as (A & B & C).
    split; [exact A|]. split; [exact B|]. right. now exists call, n. }
  assert (F : forall n,
             (1 <= n <= 3)%nat ->
             let h := OpenAI.fail_500 fresh_res (retry_trace call n) in
             answered h
             /\ (List.length (body (OpenAI.h_res h)) <= 1)%nat
             /\ ((OpenAI.h_trace h = [] /\ escalates h)
                 \/ exists call' n',
                      (1 <= n' <= 3)%nat
                      /\ OpenAI.h_trace h = retry_trace call' n')).
  { intros n Hn. split; [now left|]. split; [cbn; lia|].
    right. now exists call, n. }
  rewrite (retry_loop_step 3 cfg upstream model messages stream otherParams
             0 fresh_res [] call ltac:(reflexivity) Hc).
  change (Z.to_nat 0) with 0%nat.
  destruct (upstream 0%nat) as [d0|st0 msg0]; [apply (R d0 1%nat); lia|].
  destruct (rate_limited (Rejected st0 msg0)); [|apply (F 1%nat); lia].
  change (0 <? OpenAI.maxRetries - 1) with true. cbn [andb].
  rewrite (retry_loop_step 2 cfg upstream model messages stream otherParams
             (0 + 1) fresh_res _ call ltac:(reflexivity) Hc).
  change (Z.to_nat (0 + 1)) with 1%nat.
  destruct (upstream 1%nat) as [d1|st1 msg1]; [apply (R d1 2%nat); lia|].
  destruct (rate_limited (Rejected st1 msg1)); [|apply (F 2%nat); lia].
  change (0 + 1 <? OpenAI.maxRetries - 1) with true. cbn [andb].
  rewrite (retry_loop_step 1 cfg upstream model messages stream otherParams
             (0 + 1 + 1) fresh_res _ call ltac:(reflexivity) Hc).
  change (Z.to_nat (0 + 1 + 1)) with 2%nat.
  change (0 + 1 + 1 <? OpenAI.maxRetries - 1) with false.
  rewrite andb_false_r.
  destruct (upstream 2%nat) as [d2|st2 msg2];
    [apply (R d2 3%nat); lia | apply (F 3%nat); lia].
Qed.



(** X9. A [/v1/chat/completions] call that does not stream and whose first
    request the upstream answers with an object is answered, with status
    200, by that object with its [model] replaced by the resolved model
    name; every other field of the upstream's answer is passed on as it
    came. *)
Theorem chatCompletions_json_answer (cfg : config)
    (upstream : nat -> attempt) (req_body model messages stream : jsval)
    (otherParams : list (jsstring * jsval)) (call : axios_call)
    (fs : list (jsstring * jsval)) :
  get req_body (lit "model") = Ok model ->
  get req_body (lit "messages") = Ok messages ->
  get req_body (lit "stream") = Ok stream ->
  rest_without chat_keys req_body = Ok otherParams ->
  let stream := match stream with JUndefined => JBool false | v => v end in
  let chosen := chosenModel cfg model in
  let wants := wantsStream cfg stream in
  makeChatRequest cfg chosen messages wants otherParams = Ok call ->
  truthy wants = false ->
  upstream 0%nat = Resolved (JObj fs) ->
  let h := OpenAI.chatCompletions cfg upstream req_body in
  exists fs',
    body (OpenAI.h_res h) = [WJson (JObj fs')]
    /\ status (OpenAI.h_res h) = 200
    /\ ended (OpenAI.h_res h) = true
    /\ OpenAI.h_streaming h = None
    /\ lookup (lit "model") fs' = Some chosen
    /\ forall k, k <> lit "model" -> lookup k fs' = lookup k fs.
Proof.
  intros Hm Hg Hs Ho stream' chosen wants Hc W U h.
  subst chosen wants. unfold chat_keys in Ho.
  assert (Eh : h = OpenAI.retry_loop 4 cfg upstream model messages stream'
                     otherParams 0 fresh_res []).
  { unfold h, OpenAI.chatCompletions. rewrite Hm, Hg, Hs, Ho. reflexivity. }
  rewrite Eh.
  rewrite (retry_loop_step 3 cfg upstream model messages stream' otherParams
             0 fresh_res [] call ltac:(reflexivity) Hc).
  change (Z.to_nat 0) with 0%nat. rewrite U.
  unfold OpenAI.respond. rewrite W. cbn.
  eexists. repeat (split; [reflexivity|]). split.
  - now rewrite lookup_obj_set, str_eqb_refl.
  - intros k Hk. rewrite lookup_obj_set.
    apply str_eqb_neq in Hk. now rewrite Hk.
Qed.

Lemma chatCompletions_json_answer_witness :
  exists fs',
    body (OpenAI.h_res (OpenAI.chatCompletions openai_config answers_at_once
                                               chat_request))
    = [WJson (JObj fs')]
    /\ lookup (lit "model") fs' = Some (JStr (lit "m1"))
    /\ lookup (lit "id") fs' = Some (JStr (lit "cmpl-1")).
Proof.
  destruct (chatCompletions_json_answer openai_config answers_at_once
              chat_request _ _ _ _ _ one_choice eq_refl eq_refl eq_refl
              eq_refl eq_refl eq_refl eq_refl)
    as (fs' & B & _ & _ & _ & M & K).
  exists fs'. split; [exact B|]. split; [exact M|].
  rewrite K; [reflexivity | discriminate].
Defined.

(** X10. Under the OpenAI style, the request [chatCompletions] makes for an
    object body carries every field of the body other than [model],
    [messages] and [stream] as an extra parameter, unchanged, and none of
    those three; its [max_tokens] is the body's when the body has one and
    3000 otherwise; it asks for a streamed body exactly when the call's
    [stream] is truthy. *)
Theorem chatCompletions_forwards_params (cfg : config)
    (upstream : nat -> attempt) (fs : list (jsstring * jsval)) :
  is_gemini cfg = false ->
  let stream := defaulted (JBool false) (get_opt (JObj fs) (lit "stream")) in
  exists otherParams call,
    hd_error (OpenAI.h_trace (OpenAI.chatCompletions cfg upstream (JObj fs)))
    = Some (EvRequest call)
    /\ call = PostChatCompletions
                (chosenModel cfg (get_opt (JObj fs) (lit "model")))
                (get_opt (JObj fs) (lit "messages"))
                (wantsStream cfg stream)
                (match lookup (lit "max_tokens") fs with
                 | Some v => v
                 | None => JInt 3000
                 end)
                otherParams
                (if truthy stream then rt_stream else rt_json)
                (if truthy stream then 0 else 60000)
    /\ (forall k, lookup k otherParams
                  = if mem_key k chat_keys then None else lookup k fs)
    /\ streams call = truthy stream.
Proof.
  intros G stream.
  set (otherParams := filter (fun kv => negb (mem_key (fst kv) chat_keys)) fs).
  assert (W : wantsStream cfg stream
              = if truthy stream then JBool true else stream).
  { unfold wantsStream, js_and. now rewrite G. }
  assert (T : truthy (wantsStream cfg stream) = truthy stream).
  { rewrite W. now destruct (truthy stream) eqn:E. }
  assert (U : match wantsStream cfg stream with
              | JUndefined => JBool true
              | _ => wantsStream cfg stream
              end = wantsStream cfg stream).
  { rewrite W. destruct (truthy stream) eqn:E; [reflexivity|].
    clear E W T. subst stream. unfold defaulted.
    destruct (get_opt (JObj fs) (lit "stream")); reflexivity. }
  set (call := PostChatCompletions
                 (chosenModel cfg (get_opt (JObj fs) (lit "model")))
                 (get_opt (JObj fs) (lit "messages"))
                 (wantsStream cfg stream)
                 (match lookup (lit "max_tokens") fs with
                  | Some v => v
                  | None => JInt 3000
                  end)
                 otherParams
                 (if truthy stream then rt_stream else rt_json)
                 (if truthy stream then 0 else 60000)).
  assert (Hc : makeChatRequest cfg
                 (chosenModel cfg (get_opt (JObj fs) (lit "model")))
                 (get_opt (JObj fs) (lit "messages"))
                 (wantsStream cfg stream) otherParams
               = Ok call).
  { unfold makeChatRequest. cbv zeta. rewrite G, U, T. unfold call.
    do 2 f_equal. unfold otherParams. rewrite lookup_rest. reflexivity. }
  exists otherParams, call. split; [|split; [reflexivity|split]].
  - unfold OpenAI.chatCompletions. cbn [get rest_without nullish own_props].
    fold chat_keys. fold otherParams.
    change (S (Z.to_nat OpenAI.maxRetries)) with 4%nat.
    change (hd_error
              (OpenAI.h_trace
                 (OpenAI.retry_loop 4 cfg upstream
                    (get_opt (JObj fs) (lit "model"))
                    (get_opt (JObj fs) (lit "messages"))
                    stream otherParams 0 fresh_res []))
            = Some (EvRequest call)).
    rewrite (retry_loop_step 3 cfg upstream _ _ _ otherParams
               0 fresh_res [] _ ltac:(reflexivity) Hc).
    destruct (upstream (Z.to_nat 0)) as [d0|st0 msg0].
    + destruct (OpenAI.respond _ _ _ d0 fresh_res) as [r1 [s|]]; reflexivity.
    + destruct (rate_limited _ && _).
      * rewrite (retry_loop_step 2 cfg upstream _ _ _ otherParams
                   (0 + 1) fresh_res _ _ ltac:(reflexivity) Hc).
        destruct (upstream (Z.to_nat (0 + 1))) as [d1|st1 msg1].
        -- destruct (OpenAI.respond _ _ _ d1 fresh_res) as [r1 [s|]];
             reflexivity.
        -- destruct (rate_limited _ && _); [|reflexivity].
           rewrite (retry_loop_step 1 cfg upstream _ _ _ otherParams
                      (0 + 1 + 1) fresh_res _ _ ltac:(reflexivity) Hc).
           destruct (upstream (Z.to_nat (0 + 1 + 1))) as [d2|st2 msg2].
           ++ destruct (OpenAI.respond _ _ _ d2 fresh_res) as [r1 [s|]];
                reflexivity.
           ++ destruct (rate_limited _ && _); reflexivity.
      * reflexivity.
  - intros k. unfold otherParams. apply lookup_rest.
  - unfold call. cbn [streams]. now destruct (truthy stream).
Qed.

Lemma chatCompletions_forwards_params_witness :
  exists otherParams call,
    hd_error (OpenAI.h_trace
                (OpenAI.chatCompletions openai_config answers_at_once
                                        (JObj tuned_request)))
    = Some (EvRequest call)
    /\ lookup (lit "temperature") otherParams = Some (JInt 0)
    /\ lookup (lit "model") otherParams = None
    /\ streams call = false.
Proof.
  destruct (chatCompletions_forwards_params openai_config answers_at_once
              tuned_request eq_refl)
    as (otherParams & call & H & _ & K & S).
  exists otherParams, call. split; [exact H|].
  split; [now rewrite K|]. split; [now rewrite K | exact S].
Defined.

(** ** [chat] of the local-runner surface *)



(** X11. [chat] makes one upstream request at most and never repeats it: a
    rejection, with status 429 as with any other, is answered at once by
    the 500 error that carries the upstream's message, and neither the
    clock nor the random source is touched. *)
Theorem chat_never_retries (cfg : config) (code : option Z)
    (message req_body : jsval) (w : world) :
  exists calls,
    Ollama.chat cfg (Rejected code message) req_body w
    = (Failure (lit "Failed to proxy request")
               (match calls with
                | [] => TypeError
                | _ => UpstreamError message
                end),
       calls, w)
    /\ (List.length calls <= 1)%nat.
Proof.
  unfold Ollama.chat.
  destruct (get req_body (lit "model")) as [model|];
    [|exists []; split; [reflexivity | cbn; lia]].
  destruct (get req_body (lit "messages")) as [messages|];
    [|exists []; split; [reflexivity | cbn; lia]].
  destruct (get req_body (lit "stream")) as [stream|];
    [|exists []; split; [reflexivity | cbn; lia]].
  destruct (rest_without _ req_body) as [otherParams|];
    [|exists []; split; [reflexivity | cbn; lia]].
  cbv zeta.
  destruct (makeChatRequest _ _ _ _ _) as [call|];
    [exists [call] | exists []]; (split; [reflexivity | cbn; lia]).
Qed.

(** X12. [chat] streams by default: with the upstream's answer in hand it
    leaves the request to the stream callbacks exactly when the body's
    [stream], [true] when the body has none, is truthy and the style is not
    gemini; under the OpenAI style that is exactly when it asked the
    upstream for a streamed body.  One request is made either way. *)
Theorem chat_streams_by_default (cfg : config) (data req_body : jsval)
    (w : world) (model messages stream : jsval)
    (otherParams : list (jsstring * jsval)) (call : axios_call) :
  get req_body (lit "model") = Ok model ->
  get req_body (lit "messages") = Ok messages ->
  get req_body (lit "stream") = Ok stream ->
  rest_without chat_keys req_body = Ok otherParams ->
  let stream := defaulted (JBool true) stream in
  let chosen := chosenModel cfg model in
  makeChatRequest cfg chosen messages (wantsStream cfg stream) otherParams
  = Ok call ->
  let r := Ollama.chat cfg (Resolved data) req_body w in
  snd (fst r) = [call]
  /\ is_streaming (fst (fst r)) = truthy stream && negb (is_gemini cfg)
  /\ (is_streaming (fst (fst r)) = true -> fst (fst r) = Streaming chosen)
  /\ (is_gemini cfg = false -> streams call = is_streaming (fst (fst r))).
Proof.
  intros Hm Hg Hs Ho stream' chosen Hc r.
  unfold chat_keys in Ho. subst r chosen stream'. unfold defaulted in *.
  unfold Ollama.chat. rewrite Hm, Hg, Hs, Ho. cbv zeta. rewrite Hc.
  set (stream' := match stream with JUndefined => JBool true | _ => stream end)
    in *.
  assert (T : truthy (wantsStream cfg stream')
              = truthy stream' && negb (is_gemini cfg)).
  { unfold wantsStream, js_and.
    destruct (truthy stream') eqn:E; [reflexivity | exact E]. }
  assert (N : stream' <> JUndefined) by (subst stream'; now destruct stream).
  assert (S : is_gemini cfg = false -> streams call = truthy stream').
  { intros G. unfold makeChatRequest in Hc. rewrite G in Hc. cbv zeta in Hc.
    injection Hc as <-. cbn [streams].
    unfold wantsStream, js_and. rewrite G. cbn [negb].
    destruct (truthy stream') eqn:E; [reflexivity|].
    destruct stream'; try contradiction; cbn in E |- *; now rewrite ?E. }
  destruct (truthy (wantsStream cfg stream')) eqn:W.
  - cbn [fst snd is_streaming]. repeat split; try assumption.
    intros G. rewrite (S G). rewrite G in T. cbn [negb] in T.
    rewrite andb_true_r in T. now rewrite <- T.
  - assert (Q : forall x : reply * list axios_call * world,
               (exists r0 w0, x = (AnswerChat r0, [call], w0))
               \/ (exists e w0,
                     x = (Failure (lit "Failed to proxy request") e, [call], w0))
               -> snd (fst x) = [call]
                  /\ is_streaming (fst (fst x)) = truthy stream' && negb (is_gemini cfg)
                  /\ (is_streaming (fst (fst x)) = true ->
                      fst (fst x) = Streaming (chosenModel cfg model))
                  /\ (is_gemini cfg = false ->
                      streams call = is_streaming (fst (fst x)))).
    { intros x [(r0 & w0 & ->)|(e & w0 & ->)]; cbn [fst snd is_streaming];
        (split; [reflexivity|]); (split; [exact T|]);
        (split; [discriminate|]);
        intros G; rewrite (S G); rewrite G in T; cbn [negb] in T;
        rewrite andb_true_r in T; now rewrite <- T. }
    apply Q.
    destruct (set data _ _) as [v|]; [|right; now eexists _, _].
    destruct (transformChatResponse _ _ v w) as [[r0|] w0];
      [left | right]; now eexists _, _.
Qed.

Lemma chat_streams_by_default_witness :
  fst (fst (Ollama.chat openai_config (Resolved JNull) chat_request
                        sample_world))
  = Streaming (JStr (lit "m1")).
Proof.
  apply (chat_streams_by_default openai_config JNull chat_request sample_world
           _ _ _ _ _ eq_refl eq_refl eq_refl eq_refl eq_refl).
  reflexivity.
Defined.



(** X14. A [chat] call without [messages] that does not stream fails after
    the upstream has been asked: one request is made, and whatever the
    upstream answers the client gets the 500 error of a TypeError, since the
    answer is built from [messages.length]. *)
Theorem chat_without_messages (cfg : config) (data req_body : jsval)
    (w : world) (model messages stream : jsval)
    (otherParams : list (jsstring * jsval)) :
  get req_body (lit "model") = Ok model ->
  get req_body (lit "messages") = Ok messages ->
  get req_body (lit "stream") = Ok stream ->
  rest_without chat_keys req_body = Ok otherParams ->
  nullish messages = true ->
  truthy (wantsStream cfg (defaulted (JBool true) stream)) = false ->
  exists call w',
    Ollama.chat cfg (Resolved data) req_body w
    = (Failure (lit "Failed to proxy request") TypeError, [call], w').
Proof.
  intros Hm Hg Hs Ho N W. unfold chat_keys in Ho. unfold defaulted in *.
  unfold Ollama.chat. rewrite Hm, Hg, Hs, Ho. cbv zeta.
  assert (C : exists call,
             makeChatRequest cfg (chosenModel cfg model) messages
               (wantsStream cfg
                  match stream with JUndefined => JBool true | _ => stream end)
               otherParams = Ok call).
  { unfold makeChatRequest. cbv zeta.
    destruct (is_gemini cfg); [|now eexists].
    destruct messages; try discriminate; cbn; now eexists. }
  destruct C as (call & C). rewrite C, W.
  destruct (set data _ _) as [v|]; [|now eexists _, _].
  unfold transformChatResponse.
  destruct (new_Date w) as [d w0].
  destruct (first_message_content v); [|now eexists _, _].
  destruct (random_below _ w0) as [t w1], (random_below _ w1) as [l w2].
  destruct messages; try discriminate; cbn [js_length]; now eexists _, _.
Qed.

Lemma chat_without_messages_witness :
  exists call w',
    Ollama.chat openai_config (Resolved (JObj one_choice)) no_messages_request
                sample_world
    = (Failure (lit "Failed to proxy request") TypeError, [call], w').
Proof.
  exact (chat_without_messages openai_config (JObj one_choice)
           no_messages_request sample_world _ _ _ _
           eq_refl eq_refl eq_refl eq_refl eq_refl eq_refl).
Defined.

(** ** [generate] and [completions] *)

Lemma generateRandomContext_draws (count : nat) :
  forall w,
    unit_draws w ->
    List.length (fst (Ollama.generateRandomContext count w)) = count
    /\ Forall (fun token => 0 <= token < 100000)
              (fst (Ollama.generateRandomContext count w))
    /\ snd (Ollama.generateRandomContext count w) = advance 0 count w.
Proof.
  induction count as [|n IH]; intros w U.
  - cbn. repeat split; [constructor | symmetry; apply advance_zero].
  - cbn [Ollama.generateRandomContext].
    destruct (random_below_spec 100000 w U ltac:(lia)) as [B W].
    destruct (random_below 100000 w) as [token w1]. cbn [fst snd] in B, W.
    subst w1.
    destruct (IH (advance 0 1 w) (unit_draws_advance _ _ _ U)) as (L & F & E).
    destruct (Ollama.generateRandomContext n (advance 0 1 w)) as [rest w2].
    cbn [fst snd] in *. split; [cbn [List.length]; now rewrite L|].
    split; [now constructor|].
    rewrite E, advance_advance. reflexivity.
Qed.

(** X15. [generateRandomContext(count)] returns [count] token ids, each a
    whole number from 0 up to 99999, and draws [count] random numbers for
    them. *)
Theorem generateRandomContext_tokens (count : nat) (w : world) :
  unit_draws w ->
  List.length (fst (Ollama.generateRandomContext count w)) = count
  /\ Forall (fun token => 0 <= token < 100000)
            (fst (Ollama.generateRandomContext count w))
  /\ snd (Ollama.generateRandomContext count w) = advance 0 count w.
Proof. apply generateRandomContext_draws. Qed.

Lemma generateRandomContext_tokens_witness :
  List.length (fst (Ollama.generateRandomContext 500 sample_world)) = 500%nat.
Proof.
  exact (proj1 (generateRandomContext_tokens 500 sample_world
                  sample_world_unit)).
Defined.

Lemma generate_parts (b : Ollama.raw_body) :
  exists otherParams,
    get (Ollama.parseRequestBody b) (lit "model")
    = Ok (get_opt (Ollama.parseRequestBody b) (lit "model"))
    /\ get (Ollama.parseRequestBody b) (lit "prompt")
       = Ok (get_opt (Ollama.parseRequestBody b) (lit "prompt"))
    /\ get (Ollama.parseRequestBody b) (lit "stream")
       = Ok (get_opt (Ollama.parseRequestBody b) (lit "stream"))
    /\ rest_without [lit "model"; lit "prompt"; lit "stream"]
                    (Ollama.parseRequestBody b) = Ok otherParams.
Proof.
  pose proof (parseRequestBody_not_nullish b) as N.
  destruct (rest_without_not_nullish [lit "model"; lit "prompt"; lit "stream"]
              _ N) as (rest & R).
  exists rest. repeat split; try (now apply get_not_nullish). exact R.
Qed.

(** X16. [generate] pipes the upstream's body to the client unless the
    body's [stream] is the boolean [false] or the style is gemini: an absent
    [stream], and any other value, [0] and [null] included, streams.  It
    makes one request, and asks the upstream for a streamed body exactly
    when it pipes. *)
Theorem generate_pipes_unless_false (cfg : config) (data : jsval)
    (req_body : Ollama.raw_body) (w : world) :
  let body := Ollama.parseRequestBody req_body in
  let r := Ollama.generate cfg (Resolved data) req_body w in
  (fst (fst r) = Piped
   <-> get_opt body (lit "stream") <> JBool false /\ is_gemini cfg = false)
  /\ exists call,
       snd (fst r) = [call]
       /\ (completion_streams call = true <-> fst (fst r) = Piped).
Proof.
  cbv zeta. unfold Ollama.generate.
  destruct (generate_parts req_body) as (otherParams & -> & -> & -> & ->).
  cbv zeta.
  set (s := get_opt (Ollama.parseRequestBody req_body) (lit "stream")).
  set (stream := match s with JBool false => false | _ => true end).
  assert (S : stream = true <-> s <> JBool false).
  { subst stream. destruct s as [| |[|]| | | |]; split; easy. }
  set (call := makeCompletionRequest _ _ _ _ _).
  assert (C : completion_streams call = stream && negb (is_gemini cfg)).
  { subst call. unfold makeCompletionRequest. cbv zeta.
    destruct (is_gemini cfg); [now rewrite andb_false_r|].
    rewrite andb_true_r. cbn. now destruct stream. }
  destruct (stream && negb (is_gemini cfg)) eqn:W.
  - cbn [fst snd]. apply andb_true_iff in W as [W1 W2].
    apply negb_true_iff in W2. split.
    + split; [intros _; split; [now apply S | exact W2] | reflexivity].
    + exists call. split; [reflexivity|]. now rewrite C.
  - assert (Q : forall x : reply * list completion_call * world,
               fst (fst x) <> Piped -> snd (fst x) = [call] ->
               (fst (fst x) = Piped
                <-> s <> JBool false /\ is_gemini cfg = false)
               /\ exists call0,
                    snd (fst x) = [call0]
                    /\ (completion_streams call0 = true
                        <-> fst (fst x) = Piped)).
    { intros x NP Cx. split.
      - split; [intros H; contradiction|].
        intros [H1 H2]. apply S in H1. rewrite H1, H2 in W. discriminate.
      - exists call. split; [exact Cx|]. rewrite C.
        split; [discriminate | intros H; contradiction]. }
    destruct (new_Date w) as [d w0].
    destruct (first_message_content data) as [content|];
      [|apply Q; [discriminate | reflexivity]].
    destruct (Ollama.generateRandomContext 500 w0) as [context w1].
    repeat match goal with
           | |- context [random_below ?n ?w] => destruct (random_below n w)
           end.
    apply Q; [discriminate | reflexivity].
Qed.




(** X18. [completions] makes one upstream request and never repeats it.  A
    rejection, whatever its status, is answered by the 500 error; an
    answered call that streams is piped to the client; an answered call
    that does not stream is answered with status 200 by the upstream's
    object, its [model] replaced by the resolved model name and its other
    fields as they came. *)
Theorem completions_one_request (cfg : config) (upstream : attempt)
    (req_body model prompt stream : jsval)
    (otherParams : list (jsstring * jsval)) :
  get req_body (lit "model") = Ok model ->
  get req_body (lit "prompt") = Ok prompt ->
  get req_body (lit "stream") = Ok stream ->
  rest_without [lit "model"; lit "prompt"; lit "stream"] req_body
  = Ok otherParams ->
  let chosen := chosenModel cfg model in
  let wants := wantsStream cfg (defaulted (JBool false) stream) in
  let r := OpenAI.completions cfg upstream req_body in
  snd r = [makeCompletionRequest cfg chosen prompt wants otherParams]
  /\ match upstream with
     | Rejected _ _ => fst r = Answer 500 OpenAI.proxy_error
     | Resolved data =>
         if truthy wants then fst r = Piped
         else
           forall fs, data = JObj fs ->
             exists fs',
               fst r = Answer 200 (JObj fs')
               /\ lookup (lit "model") fs' = Some chosen
               /\ forall k, k <> lit "model" -> lookup k fs' = lookup k fs
     end.
Proof.
  intros Hm Hp Hs Ho chosen wants r.
  subst r chosen wants. unfold defaulted.
  unfold OpenAI.completions. rewrite Hm, Hp, Hs, Ho. cbv zeta.
  destruct upstream as [data|code msg]; [|split; reflexivity].
  destruct (truthy (wantsStream cfg _)); [split; reflexivity|].
  destruct (set data _ _) as [data'|] eqn:D; (split; [reflexivity|]);
    intros fs ->; cbn [set] in D; [|discriminate].
  injection D as <-. eexists. split; [reflexivity|]. split.
  - now rewrite lookup_obj_set, str_eqb_refl.
  - intros k Hk. rewrite lookup_obj_set.
    apply str_eqb_neq in Hk. now rewrite Hk.
Qed.

Lemma completions_one_request_witness :
  exists fs',
    fst (OpenAI.completions openai_config (Resolved (JObj one_choice))
                            completion_request)
    = Answer 200 (JObj fs')
    /\ lookup (lit "model") fs' = Some (JStr (lit "m1")).
Proof.
  destruct (proj2 (completions_one_request openai_config
                     (Resolved (JObj one_choice)) completion_request
                     _ _ _ _ eq_refl eq_refl eq_refl eq_refl)
                  one_choice eq_refl)
    as (fs' & E & M & _).
  exists fs'. split; [exact E | exact M].
Defined.

(** ** The payload of [makeCompletionRequest] *)

Lemma lookup_app (k : jsstring) (a b : list (jsstring * jsval)) :
  lookup k (a ++ b)
  = match lookup k a with Some v => Some v | None => lookup k b end.
Proof.
  induction a as [|[k0 v0] a IH]; cbn [app lookup]; [reflexivity|].
  now destruct (str_eqb k k0).
Qed.

Lemma lookup_obj_spread (k : jsstring) (extra : list (jsstring * jsval)) :
  forall fs,
    lookup k (obj_spread fs extra)
    = match lookup k (rev extra) with
      | Some v => Some v
      | None => lookup k fs
      end.
Proof.
  unfold obj_spread.
  induction extra as [|[k0 v0] extra IH]; intros fs; cbn [fold_left rev];
    [reflexivity|].
  rewrite IH, lookup_app. cbn [fst snd lookup].
  rewrite lookup_obj_set.
  destruct (lookup k (rev extra)); [reflexivity|].
  now destruct (str_eqb k k0).
Qed.

Lemma lookup_none (k : jsstring) (fs : list (jsstring * jsval)) :
  ~ In k (map fst fs) -> lookup k fs = None.
Proof.
  induction fs as [|[k0 v0] r IH]; cbn [map fst lookup In]; [reflexivity|].
  intros H. destruct (str_eqb k k0) eqn:E.
  - apply str_eqb_eq in E. subst k0. contradiction H. now left.
  - apply IH. intros I. apply H. now right.
Qed.

Lemma lookup_rev (k : jsstring) (fs : list (jsstring * jsval)) :
  NoDup (map fst fs) -> lookup k (rev fs) = lookup k fs.
Proof.
  induction fs as [|[k0 v0] r IH]; cbn [map fst rev lookup]; [reflexivity|].
  intros H. inversion H as [|? ? N D]; subst.
  rewrite lookup_app, (IH D). cbn [lookup].
  destruct (str_eqb k k0) eqn:E.
  - apply str_eqb_eq in E. subst k0. now rewrite (lookup_none _ _ N).
  - now destruct (lookup k r).
Qed.

(** X19. Under the OpenAI style the payload of [makeCompletionRequest] is
    the prompt as one user message, with [model], [stream] and
    [max_tokens: 500], overlaid by the extra parameters: a property the
    extra parameters name takes their value.  So a body of [completions] or
    [generate] that carries its own [messages] sends those in the place of
    the prompt, and its own [max_tokens] in the place of 500. *)
Theorem completion_payload_overlay (cfg : config)
    (model prompt stream : jsval) (otherParams : list (jsstring * jsval)) :
  is_gemini cfg = false ->
  NoDup (map fst otherParams) ->
  exists payload,
    makeCompletionRequest cfg model prompt stream otherParams
    = PostCompletion payload
        (if truthy (defaulted (JBool true) stream) then rt_stream else rt_json)
    /\ forall k,
         lookup k payload
         = match lookup k otherParams with
           | Some v => Some v
           | None =>
               lookup k (completion_base model prompt
                           (defaulted (JBool true) stream))
           end.
Proof.
  intros G D. unfold makeCompletionRequest, defaulted. cbv zeta. rewrite G.
  eexists. split; [reflexivity|].
  intros k. rewrite lookup_obj_spread, (lookup_rev _ _ D). reflexivity.
Qed.

Lemma completion_payload_overlay_witness :
  exists payload rt,
    makeCompletionRequest openai_config (JStr (lit "m1")) (JStr (lit "hello"))
                          (JBool false) own_messages
    = PostCompletion payload rt
    /\ lookup (lit "messages") payload = lookup (lit "messages") own_messages
    /\ lookup (lit "max_tokens") payload = Some (JInt 64)
    /\ lookup (lit "model") payload = Some (JStr (lit "m1")).
Proof.
  assert (D : NoDup (map fst own_messages)).
  { repeat constructor; cbn; intuition discriminate. }
  destruct (completion_payload_overlay openai_config (JStr (lit "m1"))
              (JStr (lit "hello")) (JBool false) own_messages eq_refl D)
    as (payload & E & K).
  exists payload, rt_json. split; [exact E|].
  rewrite !K. repeat split.
Defined.

(** ** The catalog of the OpenAI surface *)

Lemma existsb_str_eqb (name : jsstring) (names : list jsstring) :
  existsb (str_eqb name) names = true <-> In name names.
Proof.
  rewrite existsb_exists. split.
  - intros (x & I & E). apply str_eqb_eq in E. now subst.
  - intros I. exists name. split; [exact I | apply str_eqb_refl].
Qed.

Lemma map_world_openai_model (names : list jsstring) :
  forall w,
    map (fun e => get_opt e (lit "id")) (fst (map_world openai_model names w))
    = map JStr names
    /\ snd (map_world openai_model names w)
       = advance (List.length names) 0 w.
Proof.
  induction names as [|name names IH]; intros w.
  - cbn. split; [reflexivity | symmetry; apply advance_zero].
  - cbn [map_world].
    assert (E : exists y,
               openai_model name w
               = (y, mk_world (clock_ms w) (clock_date w) (random w)
                              (S (ticks w)) (draws w))
               /\ get_opt y (lit "id") = JStr name)
      by (eexists; split; reflexivity).
    destruct E as (y & -> & Y).
    match goal with
    | |- context [map_world openai_model names ?w1] =>
        destruct (IH w1) as [I W];
        destruct (map_world openai_model names w1) as [ys w2]
    end.
    cbn [fst snd] in *. split.
    + cbn [map]. now rewrite I, Y.
    + rewrite W. unfold advance. cbn. f_equal; lia.
Qed.

Lemma getModel_cases (cfg : config) (model : jsstring)
    (w : world) :
  (In model (SUPPORTED_MODELS cfg) ->
   OpenAI.getModel cfg model w
   = (Answer 200
        (JObj [(lit "id", JStr model);
               (lit "object", JStr (lit "model"));
               (lit "created", JInt (clock_ms w (ticks w) / 1000));
               (lit "owned_by", JStr (lit "library"))]),
      advance 1 0 w))
  /\ (~ In model (SUPPORTED_MODELS cfg) ->
      OpenAI.getModel cfg model w = (Answer 404 OpenAI.model_not_found, w)).
Proof.
  unfold OpenAI.getModel, getOpenAIModel. split; intros H.
  - apply existsb_str_eqb in H. rewrite H.
    unfold openai_model, Date_now. cbn [truthy]. f_equal.
    unfold advance. f_equal; lia.
  - destruct (existsb _ _) eqn:E; [|reflexivity].
    apply existsb_str_eqb in E. contradiction.
Qed.

(** X20. [getModel] answers for exactly the configured names: for a name in
    [SUPPORTED_MODELS], status 200 with the entry of that [id], stamped
    with the time of the request in seconds; for every other name, status
    404 with the [invalid_request_error] "Model not found", without reading
    the clock. *)
Theorem getModel_found_iff_listed (cfg : config) (model : jsstring)
    (w : world) :
  (In model (SUPPORTED_MODELS cfg) ->
   OpenAI.getModel cfg model w
   = (Answer 200
        (JObj [(lit "id", JStr model);
               (lit "object", JStr (lit "model"));
               (lit "created", JInt (clock_ms w (ticks w) / 1000));
               (lit "owned_by", JStr (lit "library"))]),
      advance 1 0 w))
  /\ (~ In model (SUPPORTED_MODELS cfg) ->
      OpenAI.getModel cfg model w = (Answer 404 OpenAI.model_not_found, w)).
Proof. apply getModel_cases. Qed.

Lemma getModel_found_iff_listed_witness :
  reply_code (fst (OpenAI.getModel openai_config (lit "deepseek-r1:7b")
                                   sample_world)) = Some 200
  /\ reply_code (fst (OpenAI.getModel openai_config (lit "gpt-4")
                                      sample_world)) = Some 404.
Proof.
  split.
  - rewrite (proj1 (getModel_found_iff_listed openai_config
                      (lit "deepseek-r1:7b") sample_world));
      [reflexivity | now left].
  - rewrite (proj2 (getModel_found_iff_listed openai_config (lit "gpt-4")
                      sample_world)); [reflexivity|].
    cbn. intuition discriminate.
Defined.

(** X21. [listModels] answers with status 200 and one entry for each
    configured name, in the configured order, repeated names included; the
    ids it lists are exactly the names [getModel] answers 200 for. *)
Theorem listModels_catalog (cfg : config) (w : world) :
  reply_code (fst (OpenAI.listModels cfg w)) = Some 200
  /\ listed_ids (fst (OpenAI.listModels cfg w))
     = map JStr (SUPPORTED_MODELS cfg)
  /\ snd (OpenAI.listModels cfg w)
     = advance (List.length (SUPPORTED_MODELS cfg)) 0 w
  /\ forall name w',
       In (JStr name) (listed_ids (fst (OpenAI.listModels cfg w)))
       <-> reply_code (fst (OpenAI.getModel cfg name w')) = Some 200.
Proof.
  unfold OpenAI.listModels, getOpenAIModelList.
  destruct (map_world_openai_model (SUPPORTED_MODELS cfg) w) as [I W].
  destruct (map_world openai_model (SUPPORTED_MODELS cfg) w) as [models w1].
  cbn [fst snd reply_code] in *.
  assert (L : listed_ids
                (Answer 200 (JObj [(lit "data", JArr models);
                                   (lit "object", JStr (lit "list"))]))
              = map JStr (SUPPORTED_MODELS cfg)) by exact I.
  rewrite L. repeat split; try reflexivity; try assumption.
  - intros H. apply in_map_iff in H as (x & [= ->] & H).
    now rewrite (proj1 (getModel_cases cfg name w') H).
  - intros H. apply in_map.
    destruct (in_dec (list_eq_dec N.eq_dec) name (SUPPORTED_MODELS cfg))
      as [Y|Nn]; [exact Y|].
    rewrite (proj2 (getModel_cases cfg name w') Nn) in H. discriminate.
Qed.

(** ** The embeddings handlers *)

(** X22. On both surfaces the [embed] handler answers every request as the
    [embeddings] handler of the surface does, with the same upstream
    request. *)
Theorem embed_routes_answer_alike (cfg : config) (upstream : attempt) :
  (forall req_body,
      OpenAI.embed cfg upstream req_body
      = OpenAI.embeddings cfg upstream req_body)
  /\ (forall req_body,
         Ollama.embed cfg upstream req_body
         = Ollama.embeddings cfg upstream req_body).
Proof.
  split; intros req_body; [reflexivity|].
  unfold Ollama.embed, Ollama.embeddings.
  destruct (get _ (lit "model")) as [m|]; [|reflexivity].
  destruct (Ollama.textToEmbed _) as [text|]; [|reflexivity].
  cbv zeta. now rewrite default_model_truthy.
Qed.

(** X23. Every answer of the local-runner [embeddings] handler with status
    200 carries exactly one vector, the [embedding] of the first entry of
    the upstream's answer, whatever the number of entries the upstream
    returned; one upstream request was made for it. *)
Theorem local_embeddings_first_vector (cfg : config) (upstream : attempt)
    (req_body : Ollama.raw_body) :
  status (fst (Ollama.embeddings cfg upstream req_body)) = 200 ->
  exists data e call,
    upstream = Resolved data
    /\ first_embedding data = Ok e
    /\ Ollama.embeddings cfg upstream req_body
       = (res_json (JObj [(lit "embeddings", JArr [e])]) fresh_res, [call]).
Proof.
  unfold Ollama.embeddings, Ollama.embed_request, first_embedding.
  destruct (get _ (lit "model")) as [m|]; [|discriminate].
  destruct (Ollama.textToEmbed _) as [text|]; [|discriminate].
  cbv zeta. destruct (negb (truthy (js_or m _))); [discriminate|].
  destruct (negb (truthy text)); [discriminate|].
  destruct (rest_without _ _) as [otherParams|]; [|discriminate].
  destruct upstream as [data|code msg]; [|discriminate].
  destruct (rbind _ _) as [e|] eqn:E; [|discriminate].
  intros _. now exists data, e, (makeEmbeddingsRequest cfg (js_or m (JStr (lit "all-minilm"))) text otherParams).
Qed.

Lemma local_embeddings_first_vector_witness :
  exists call,
    Ollama.embeddings openai_config (Resolved two_vectors) prompt_only_request
    = (res_json (JObj [(lit "embeddings", JArr [JArr [JInt 1; JInt 2]])])
                fresh_res, [call]).
Proof.
  destruct (local_embeddings_first_vector openai_config (Resolved two_vectors)
              prompt_only_request eq_refl)
    as (data & e & call & D & E & R).
  injection D as <-. injection E as <-. now exists call.
Defined.

Lemma parseRequestBody_text (s : jsstring) (v : jsval) :
  JSON_parse s = Some v -> (forall t, v <> JStr t) ->
  Ollama.parseRequestBody (Ollama.BodyValue (JStr s))
  = Ollama.parseRequestBody (Ollama.BodyValue v).
Proof.
  intros P N. unfold Ollama.parseRequestBody. rewrite P.
  destruct v; try reflexivity. now contradiction (N s0).
Qed.

Lemma parseRequestBody_buffer (bytes : list byte) (v : jsval) :
  JSON_parse (Buffer_toString bytes) = Some v -> (forall t, v <> JStr t) ->
  Ollama.parseRequestBody (Ollama.BodyBuffer bytes)
  = Ollama.parseRequestBody (Ollama.BodyValue v).
Proof.
  intros P N. unfold Ollama.parseRequestBody. rewrite P.
  destruct v; try reflexivity. now contradiction (N s).
Qed.

(** X24. The local-runner handlers treat the three ways a JSON document
    can reach them alike: as the value a JSON body parser made of it, as
    the text of a plain-text body, and as the raw bytes of a body without
    content type.  For a document that is not a bare string, [embeddings],
    [embed] and [generate] do the same on all three. *)
Theorem body_transports_alike (cfg : config) (upstream : attempt)
    (w : world) (bytes : list byte) (v : jsval) :
  JSON_parse (Buffer_toString bytes) = Some v ->
  (forall t, v <> JStr t) ->
  let text := Ollama.BodyValue (JStr (Buffer_toString bytes)) in
  let raw := Ollama.BodyBuffer bytes in
  let parsed := Ollama.BodyValue v in
  Ollama.embeddings cfg upstream text = Ollama.embeddings cfg upstream parsed
  /\ Ollama.embeddings cfg upstream raw = Ollama.embeddings cfg upstream parsed
  /\ Ollama.embed cfg upstream text = Ollama.embed cfg upstream parsed
  /\ Ollama.embed cfg upstream raw = Ollama.embed cfg upstream parsed
  /\ Ollama.generate cfg upstream text w = Ollama.generate cfg upstream parsed w
  /\ Ollama.generate cfg upstream raw w = Ollama.generate cfg upstream parsed w.
Proof.
  intros P N text raw parsed.
  pose proof (parseRequestBody_text _ _ P N) as T.
  pose proof (parseRequestBody_buffer _ _ P N) as B.
  unfold Ollama.embeddings, Ollama.embed, Ollama.generate.
  fold text in T. fold raw in B. fold parsed in T, B.
  rewrite T, B. repeat split.
Qed.

Lemma body_transports_alike_witness :
  Ollama.embeddings openai_config (Resolved two_vectors)
                    (Ollama.BodyBuffer (ascii_bytes prompt_text))
  = Ollama.embeddings openai_config (Resolved two_vectors)
                      (Ollama.BodyValue prompt_object).
Proof.
  refine (proj1 (proj2 (body_transports_alike openai_config
                          (Resolved two_vectors) sample_world
                          (ascii_bytes prompt_text) prompt_object
                          eq_refl _))).
  discriminate.
Defined.

(** X25. A body that is not JSON is not refused as such by the local-runner
    [embeddings] and [embed] handlers: text or bytes that do not parse are
    read as a body without fields, which, for want of a text to embed, is
    answered with the 400 error for the missing prompt or input, and no
    upstream request. *)
Theorem unparsed_body_lacks_text (cfg : config) (upstream : attempt) :
  (forall s,
      JSON_parse s = None ->
      Ollama.embeddings cfg upstream (Ollama.BodyValue (JStr s))
      = (Ollama.missing_text, [])
      /\ Ollama.embed cfg upstream (Ollama.BodyValue (JStr s))
         = (Ollama.missing_text, []))
  /\ (forall bytes,
         JSON_parse (Buffer_toString bytes) = None ->
         Ollama.embeddings cfg upstream (Ollama.BodyBuffer bytes)
         = (Ollama.missing_text, [])
         /\ Ollama.embed cfg upstream (Ollama.BodyBuffer bytes)
            = (Ollama.missing_text, [])).
Proof.
  split.
  - intros s P. unfold Ollama.embeddings, Ollama.embed, Ollama.parseRequestBody.
    rewrite P.
    assert (B : js_or (JStr s) (JObj []) = JStr s
                \/ js_or (JStr s) (JObj []) = JObj [])
      by (unfold js_or; destruct (truthy (JStr s)); auto).
    destruct B as [-> | ->]; split; reflexivity.
  - intros bytes P.
    unfold Ollama.embeddings, Ollama.embed, Ollama.parseRequestBody.
    rewrite P. now split.
Qed.

Lemma unparsed_body_lacks_text_witness :
  Ollama.embeddings openai_config (Resolved two_vectors)
                    (Ollama.BodyValue (JStr (lit "hello")))
  = (Ollama.missing_text, []).
Proof.
  exact (proj1 (proj1 (unparsed_body_lacks_text openai_config
                         (Resolved two_vectors)) (lit "hello") eq_refl)).
Defined.



(** ** [parseModelsEnv] *)

Lemma trim_start_suffix (s : jsstring) :
  exists p, s = p ++ trim_start s.
Proof.
  induction s as [|c r (p & IH)]; [now exists []|]. cbn [trim_start].
  destruct (is_js_space c); [|now exists []].
  exists (c :: p). cbn. now rewrite <- IH.
Qed.

Lemma trim_start_fixed (s : jsstring) :
  (forall c r, s = c :: r -> is_js_space c = false) -> trim_start s = s.
Proof.
  destruct s as [|c r]; [reflexivity|]. intros H. cbn.
  now rewrite (H c r eq_refl).
Qed.

Lemma trim_start_idem (s : jsstring) :
  trim_start (trim_start s) = trim_start s.
Proof.
  apply trim_start_fixed. intros c r E. eapply trim_start_head, E.
Qed.

(** Trimming a trimmed string changes nothing. *)
Lemma trim_trim (s : jsstring) : trim (trim s) = trim s.
Proof.
  unfold trim.
  set (a := trim_start s). set (b := trim_start (rev a)).
  assert (F : trim_start (rev b) = rev b).
  { apply trim_start_fixed. intros c r E.
    destruct (trim_start_suffix (rev a)) as (p & S). fold b in S.
    apply (f_equal (@rev N)) in S.
    rewrite rev_involutive, rev_app_distr, E in S.
    unfold a in S. eapply trim_start_head. exact S. }
  rewrite F, rev_involutive. unfold b. now rewrite trim_start_idem.
Qed.



Lemma comma_names_trimmed (pieces : list jsstring) :
  Forall (fun name => name <> [] /\ trim name = name)
         (filter (fun x => negb (is_empty x)) (map trim pieces)).
Proof.
  induction pieces as [|p r IH]; cbn [map filter]; [constructor|].
  destruct (trim p) as [|c t] eqn:E; cbn [is_empty negb]; [exact IH|].
  constructor; [|exact IH]. split; [discriminate|].
  rewrite <- E. apply trim_trim.
Qed.



(** X28. When [MODELS] is not read as JSON (it does not start with a
    bracket after trimming, or it does not parse), [parseModelsEnv] returns
    the array of the names between its commas: every name trimmed, and no
    empty name. *)
Theorem models_env_names (s : jsstring) :
  s <> [] ->
  (starts_with (lit "[") (trim s) = true -> JSON_parse s = None) ->
  exists names,
    parseModelsEnv (Some s) = JArr (map JStr names)
    /\ names = filter (fun x => negb (is_empty x))
                      (map trim (split_on 44 s []))
    /\ Forall (fun name => name <> [] /\ trim name = name) names.
Proof.
  intros N J. unfold parseModelsEnv.
  destruct s as [|c r]; [contradiction|]. cbn [is_empty].
  assert (E : (if starts_with (lit "[") (trim (c :: r))
               then JSON_parse (c :: r) else None) = None).
  { destruct (starts_with _ _); [now apply J | reflexivity]. }
  rewrite E. eexists. split; [reflexivity|]. split; [reflexivity|].
  apply comma_names_trimmed.
Qed.

Lemma models_env_names_witness :
  parseModelsEnv (Some models_value)
  = JArr [JStr (lit "llama3:8b"); JStr (lit "qwen2.5:7b")].
Proof.
  destruct (models_env_names models_value) as (names & E & -> & _);
    [discriminate | discriminate | exact E].
Defined.



(** ** [createModelObject]: family and parameter size *)






(** ** Chunking *)

(** X26. How the upstream's bytes are cut into chunks does not show in the
    translated stream, as long as every chunk ends between two characters
    and no chunk is reported: two deliveries of the same bytes, each in
    chunks of complete characters, leave the stream in the same state, with
    the same frames written.  Both surfaces. *)
Theorem rechunking_same_frames (model : jsval)
    (chunks chunks' : list (list byte)) (st : stream_state) :
  indexOf (buffer st) newline = -1 ->
  Forall complete_chunk chunks ->
  Forall complete_chunk chunks' ->
  List.concat chunks = List.concat chunks' ->
  (console (OpenAI.run_stream model (map Data chunks) st) = console st ->
   console (OpenAI.run_stream model (map Data chunks') st) = console st ->
   OpenAI.run_stream model (map Data chunks) st
   = OpenAI.run_stream model (map Data chunks') st)
  /\ (console (Ollama.run_stream model (map Data chunks) st) = console st ->
      console (Ollama.run_stream model (map Data chunks') st) = console st ->
      Ollama.run_stream model (map Data chunks) st
      = Ollama.run_stream model (map Data chunks') st).
Proof.
  intros B C C' E.
  pose proof (clean_split_text _ (complete_chunks_clean _ C)) as T.
  pose proof (clean_split_text _ (complete_chunks_clean _ C')) as T'.
  rewrite E in T. split; intros Q Q'.
  - rewrite !openai_run_feeds in *.
    rewrite (feeds_concat _ (openai_on_message_frame model)
               (openai_on_message_console model) _ st B Q),
            (feeds_concat _ (openai_on_message_frame model)
               (openai_on_message_console model) _ st B Q').
    now rewrite <- T, <- T'.
  - rewrite !ollama_run_feeds in *.
    rewrite (feeds_concat _ (ollama_on_message_frame model)
               (ollama_on_message_console model) _ st B Q),
            (feeds_concat _ (ollama_on_message_frame model)
               (ollama_on_message_console model) _ st B Q').
    now rewrite <- T, <- T'.
Qed.

Lemma rechunking_same_frames_witness :
  OpenAI.run_stream (JStr (lit "m1"))
    [Data delta_hi_head; Data (delta_hi_tail ++ ascii_bytes delta_hi)]
    sample_stream
  = OpenAI.run_stream (JStr (lit "m1"))
      [Data (ascii_bytes delta_hi); Data (ascii_bytes delta_hi)]
      sample_stream.
Proof.
  refine (proj1 (rechunking_same_frames (JStr (lit "m1"))
                   [delta_hi_head; delta_hi_tail ++ ascii_bytes delta_hi]
                   [ascii_bytes delta_hi; ascii_bytes delta_hi]
                   sample_stream eq_refl _ _ eq_refl) eq_refl eq_refl);
    repeat constructor.
Defined.
